(** * The pull lifecycle and the fleet scaler of [app.py]

    A shallow embedding of the orchestration code of [app.py]: the NAT
    gateway helpers, [pull_model_task], [stop_ecs_tasks],
    [shutdown_ecs_service], [get_ecs_task_status] and [selfhost_status];
    further on [start_ecs_service], [check_model], [list_models] and the
    event stream of [generate_stream].

    The code talks to three outside services (the EC2/ECS/autoscaling
    control API through boto3, the Ollama HTTP API through httpx, and the
    clock).  Every such call is an _event_; a program is a finite tree of
    events ([Prog]), finite because every loop of the source is a counted
    [for].  A program is run against a handler, which answers each event
    from a world state; the run returns the result, the final world and
    the trace of calls with their answers.  Statements that quantify over
    every handler and world hold whatever the outside services answer.

    Left out: the [logger] calls, which change nothing of what the code
    does next; the construction of the boto3 and httpx clients; and the
    scheduling of [pull_model_task] as a background task. *)

From Stdlib Require Import String List Bool Arith Lia.
Import ListNotations.
Open Scope string_scope.
Open Scope list_scope.

(** ** Python values *)

(** The answer of a call that may raise: [Raised] stands for any
    [Exception] escaping the call. *)
Inductive Result (A : Type) : Type :=
| Ok (a : A)
| Raised.
Arguments Ok {A} a.
Arguments Raised {A}.

(** Truth value of a Python [str]: the empty string is false. *)
Definition nonempty (s : string) : bool := negb (String.eqb s "").

(** Truth value of a value that is a [str] or [None]. *)
Definition truthy (o : option string) : bool :=
  match o with
  | Some s => nonempty s
  | None => false
  end.

(** [if x: yes(x) else: no] for [x] a [str] or [None]. *)
Definition if_truthy {A : Type} (o : option string) (yes : string -> A) (no : A) : A :=
  match o with
  | Some s => if nonempty s then yes s else no
  | None => no
  end.

(** ** Data exchanged with the services *)

(** The four target keys that [get_current_default_route] copies out of a
    route and that [restore_default_route] passes back to [replace_route]. *)
Record Target : Type := {
  NatGatewayId : option string;
  GatewayId : option string;
  InstanceId : option string;
  NetworkInterfaceId : option string
}.

Definition no_target : Target :=
  {| NatGatewayId := None; GatewayId := None;
     InstanceId := None; NetworkInterfaceId := None |}.

(** One entry of [response['RouteTables'][0]['Routes']]: the keys the
    code reads with [route.get]. *)
Record Route : Type := {
  DestinationCidrBlock : option string;
  route_target : Target
}.

(** The answer to [GET /api/tags]: [status_code] and the names found by
    [resp.json().get("models", [])] ([None] for an entry without a
    ["name"]); [Raised] when decoding raises. *)
Record TagsResponse : Type := {
  status_code : nat;
  json_models : Result (list (option string))
}.

(** ** Events: the calls that leave the process *)

Inductive E : Type -> Type :=
| ec2_describe_nat_gateways (Filters : list (string * list (option string)))
    : E (Result (list string))
| ec2_create_nat_gateway (SubnetId AllocationId : option string)
    : E (Result string)
| ec2_replace_route (RouteTableId : option string) (Destination : string)
                    (target : Target)
    : E (Result unit)
| ec2_delete_nat_gateway (nat_gateway_id : string) : E (Result unit)
| ec2_describe_route_tables (RouteTableIds : list (option string))
    : E (Result (list (list Route)))
| time_sleep (seconds : nat) : E unit
| asyncio_sleep (seconds : nat) : E unit
| client_post (url : string) (name : string) : E (Result nat)
| client_get (url : string) : E (Result TagsResponse)
| ecs_list_tasks (cluster serviceName : string) : E (Result (list string))
| ecs_stop_task (cluster task : string) : E (Result unit)
| ecs_describe_tasks (cluster : string) (tasks : list string)
    : E (Result (list string))
| asg_update_auto_scaling_group (name : string) (DesiredCapacity MinSize : nat)
    : E (Result unit)
| ecs_update_service (cluster service : string) (desiredCount : nat)
                     (forceNewDeployment : bool)
    : E (Result unit).

(** A call together with its answer, as it appears in a trace. *)
Inductive Event : Type :=
| Called {X : Type} (e : E X) (x : X).

(** ** Programs *)

Inductive Prog (R : Type) : Type :=
| Ret (r : R)
| Vis {X : Type} (e : E X) (k : X -> Prog R).
Arguments Ret {R} r.
Arguments Vis {R X} e k.

Fixpoint bind {A B : Type} (p : Prog A) (f : A -> Prog B) : Prog B :=
  match p with
  | Ret a => f a
  | Vis e k => Vis e (fun x => bind (k x) f)
  end.

Definition call {X : Type} (e : E X) : Prog X := Vis e Ret.

Declare Scope prog_scope.
Delimit Scope prog_scope with prog.
Notation "x <- p ;; q" := (bind p (fun x => q))
  (at level 61, p at next level, right associativity) : prog_scope.
Notation "p ;; q" := (bind p (fun _ => q))
  (at level 61, right associativity) : prog_scope.
Open Scope prog_scope.

(** ** Running a program against a handler *)

Section Run.
Context {W : Type}.
Variable h : forall X : Type, E X -> W -> X * W.

Fixpoint run {R : Type} (p : Prog R) (w : W) : R * W * list Event :=
  match p with
  | Ret r => (r, w, [])
  | Vis e k =>
      let (x, w1) := h _ e w in
      let '(r, w2, t) := run (k x) w1 in
      (r, w2, Called e x :: t)
  end.

Definition result_of {R : Type} (p : Prog R) (w : W) : R := fst (fst (run p w)).
Definition world_of {R : Type} (p : Prog R) (w : W) : W := snd (fst (run p w)).
Definition trace_of {R : Type} (p : Prog R) (w : W) : list Event := snd (run p w).

End Run.

(** ** The code of [app.py] *)

(** How [pull_model_task] ends.  The source returns [None] on every path;
    the constructors name the place it returns from. *)
Inductive PullOutcome : Type :=
| Success                   (* line 212: [break], the model is in the inventory *)
| NotAvailableAfterRetries. (* line 216: the [else] of the [for] *)

Inductive TaskEnd : Type :=
| Propagated            (* line 58: [describe_nat_gateways] raised, nothing catches it *)
| CreateFailed          (* line 180 *)
| ProvisioningTimeout   (* line 190 *)
| Finished (o : PullOutcome). (* the end of the function *)

(** What a route handler gives back to the web framework: a body, or a
    raised [HTTPException] with its status code. *)
Inductive Response (A : Type) : Type :=
| Returned (body : A)
| HTTPException (status : nat).
Arguments Returned {A} body.
Arguments HTTPException {A} status.

Section App.

(** [os.environ.get]: the process environment, read as a function. *)
Variable environ : string -> option string.

(** [os.getenv(key, default)] *)
Definition os_getenv (key default : string) : string :=
  match environ key with
  | Some v => v
  | None => default
  end.

Definition OLLAMA_HOST : string := os_getenv "OLLAMA_HOST" "http://localhost:11434".
Definition SUBNET_ID : option string := environ "SUBNET_ID".
Definition ALLOCATION_ID : option string := environ "ALLOCATION_ID".
Definition ROUTE_TABLE_ID : option string := environ "ROUTE_TABLE_ID".

(** *** The requests *)

(** Lines 58-63. *)
Definition check_call : E (Result (list string)) :=
  ec2_describe_nat_gateways
    [("subnet-id", [SUBNET_ID]); ("state", [Some "available"])].

(** Lines 69-81; the constant tags are left out. *)
Definition create_call : E (Result string) :=
  ec2_create_nat_gateway SUBNET_ID ALLOCATION_ID.

(** Lines 92-97. *)
Definition poll_call (nat_gateway_id : string) : E (Result (list string)) :=
  ec2_describe_nat_gateways
    [("nat-gateway-id", [Some nat_gateway_id]); ("state", [Some "available"])].

(** Lines 106-110. *)
Definition attach_call (nat_gateway_id : string) : E (Result unit) :=
  ec2_replace_route ROUTE_TABLE_ID "0.0.0.0/0"
    {| NatGatewayId := Some nat_gateway_id; GatewayId := None;
       InstanceId := None; NetworkInterfaceId := None |}.

(** Line 130. *)
Definition snapshot_call : E (Result (list (list Route))) :=
  ec2_describe_route_tables [ROUTE_TABLE_ID].

(** Lines 154-157: the target that ends up in [kwargs], the first key in
    the order [NatGatewayId], [GatewayId], [InstanceId],
    [NetworkInterfaceId] whose value is true, and no key at all when none
    is. *)
Definition restore_kwargs (original_route : Target) : Target :=
  if truthy (NatGatewayId original_route) then
    {| NatGatewayId := NatGatewayId original_route; GatewayId := None;
       InstanceId := None; NetworkInterfaceId := None |}
  else if truthy (GatewayId original_route) then
    {| NatGatewayId := None; GatewayId := GatewayId original_route;
       InstanceId := None; NetworkInterfaceId := None |}
  else if truthy (InstanceId original_route) then
    {| NatGatewayId := None; GatewayId := None;
       InstanceId := InstanceId original_route; NetworkInterfaceId := None |}
  else if truthy (NetworkInterfaceId original_route) then
    {| NatGatewayId := None; GatewayId := None;
       InstanceId := None; NetworkInterfaceId := NetworkInterfaceId original_route |}
  else no_target.

(** Lines 149-159. *)
Definition restore_call (original_route : Target) : E (Result unit) :=
  ec2_replace_route ROUTE_TABLE_ID "0.0.0.0/0" (restore_kwargs original_route).

(** Line 200. *)
Definition pull_call (model_name : string) : E (Result nat) :=
  client_post (OLLAMA_HOST ++ "/api/pull") model_name.

(** Line 207. *)
Definition tags_call : E (Result TagsResponse) :=
  client_get (OLLAMA_HOST ++ "/api/tags").

(** *** What the helpers make of the answers *)

(** Line 64: the first gateway of the answer, [None] when there is none.
    The call is not inside a [try]: [Raised] propagates. *)
Definition first_gateway (response : Result (list string)) : Result (option string) :=
  match response with
  | Ok (g :: _) => Ok (Some g)
  | Ok [] => Ok None
  | Raised => Raised
  end.

(** Lines 82-87. *)
Definition created_id (response : Result string) : option string :=
  match response with
  | Ok nat_id => Some nat_id
  | Raised => None
  end.

(** Lines 98-101: [bool(response['NatGateways'])], [False] on an exception. *)
Definition gateway_seen (response : Result (list string)) : bool :=
  match response with
  | Ok (_ :: _) => true
  | Ok [] => false
  | Raised => false
  end.

(** [return True] after the call, [return False] in the [except]. *)
Definition succeeded (response : Result unit) : bool :=
  match response with
  | Ok _ => true
  | Raised => false
  end.

(** [route.get('DestinationCidrBlock') == '0.0.0.0/0'] *)
Definition is_default_route (route : Route) : bool :=
  match DestinationCidrBlock route with
  | Some d => String.eqb d "0.0.0.0/0"
  | None => false
  end.

(** Lines 131-144: the target keys of the first default route; [None]
    when there is none, when [RouteTables] is empty (an [IndexError], which
    the [except] catches) and when the call raised. *)
Definition snapshot_of (response : Result (list (list Route))) : option Target :=
  match response with
  | Ok (routes :: _) => option_map route_target (find is_default_route routes)
  | Ok [] => None
  | Raised => None
  end.

(** *** The helpers *)

(** Lines 56-64. *)
Definition check_nat_gateway_status : Prog (Result (option string)) :=
  response <- call check_call ;;
  Ret (first_gateway response).

(** Lines 66-87. *)
Definition create_nat_gateway : Prog (option string) :=
  response <- call create_call ;;
  Ret (created_id response).

(** Lines 89-101. *)
Definition is_nat_gateway_available (nat_gateway_id : string) : Prog bool :=
  response <- call (poll_call nat_gateway_id) ;;
  Ret (gateway_seen response).

(** Lines 103-115. *)
Definition attach_nat_gateway_to_route_table (nat_gateway_id : string) : Prog bool :=
  response <- call (attach_call nat_gateway_id) ;;
  Ret (succeeded response).

(** Lines 117-125. *)
Definition delete_nat_gateway (nat_gateway_id : string) : Prog bool :=
  response <- call (ec2_delete_nat_gateway nat_gateway_id) ;;
  Ret (succeeded response).

(** Lines 127-144. *)
Definition get_current_default_route : Prog (option Target) :=
  response <- call snapshot_call ;;
  Ret (snapshot_of response).

(** Lines 146-164. *)
Definition restore_default_route (original_route : Target) : Prog bool :=
  response <- call (restore_call original_route) ;;
  Ret (succeeded response).

(** *** [pull_model_task] *)

(** Lines 183-190: [for _ in range(n)] with [n = 40]; [true] when the
    loop leaves through [break], [false] when it reaches its [else]. *)
Fixpoint wait_for_nat_gateway (n : nat) (nat_gateway_id : string) : Prog bool :=
  match n with
  | O => Ret false
  | S n' =>
      available <- is_nat_gateway_available nat_gateway_id ;;
      if available then Ret true
      else call (time_sleep 15) ;; wait_for_nat_gateway n' nat_gateway_id
  end.

(** Lines 177-190: the [else] branch of [if nat_gateway_id]. *)
Definition create_and_wait : Prog (TaskEnd + string) :=
  nat_gateway_id <- create_nat_gateway ;;
  if_truthy nat_gateway_id
    (fun g =>
       available <- wait_for_nat_gateway 40 g ;;
       if available then Ret (inr g) else Ret (inl ProvisioningTimeout))
    (Ret (inl CreateFailed)).

(** Lines 170-193, the body of the first [if os.getenv("OLLAMA_HOST","")].
    On [inr] the function goes on with [nat_gateway_id] and
    [original_route] bound to the two components. *)
Definition provision : Prog (TaskEnd + string * option Target) :=
  found <- check_nat_gateway_status ;;
  match found with
  | Raised => Ret (inl Propagated)
  | Ok nat_gateway_id =>
      original_route <- get_current_default_route ;;
      got <- if_truthy nat_gateway_id (fun g => Ret (inr g)) create_and_wait ;;
      match got with
      | inl e => Ret (inl e)
      | inr g =>
          attach_nat_gateway_to_route_table g ;;
          call (time_sleep 20) ;;
          Ret (inr (g, original_route))
      end
  end.

(** Lines 208-210: [status_code == 200] and
    [any(m.get("name") == model_name for m in models)]; an exception while
    decoding is caught at line 213 and the round goes on. *)
Definition name_is (model_name : string) (m : option string) : bool :=
  match m with
  | Some n => String.eqb n model_name
  | None => false
  end.

Definition model_listed (model_name : string) (resp_tags : Result TagsResponse) : bool :=
  match resp_tags with
  | Ok r =>
      if Nat.eqb (status_code r) 200 then
        match json_models r with
        | Ok models => existsb (name_is model_name) models
        | Raised => false
        end
      else false
  | Raised => false
  end.

(** Lines 197-216: [for attempt in range(n)] with [n = 10].  The answer
    to the POST, an exception included, is only logged. *)
Fixpoint pull_attempts (n : nat) (model_name : string) : Prog PullOutcome :=
  match n with
  | O => Ret NotAvailableAfterRetries
  | S n' =>
      call (pull_call model_name) ;;
      call (asyncio_sleep 60) ;;
      resp_tags <- call tags_call ;;
      if model_listed model_name resp_tags then Ret Success
      else pull_attempts n' model_name
  end.

(** Lines 220-225, the body of the second [if os.getenv("OLLAMA_HOST","")].
    [nat_gateway_id] is tested for truth only; [original_route] is a dict
    with four keys or [None], so it is true exactly when it is not [None]. *)
Definition cleanup (nat_gateway_id : string) (original_route : option Target) : Prog unit :=
  if nonempty nat_gateway_id then
    delete_nat_gateway nat_gateway_id ;;
    match original_route with
    | Some o => restore_default_route o ;; Ret tt
    | None => Ret tt
    end
  else Ret tt.

(** Lines 168-225. *)
Definition pull_model_task (model_name : string) : Prog TaskEnd :=
  if nonempty (os_getenv "OLLAMA_HOST" "") then
    provisioned <- provision ;;
    match provisioned with
    | inl e => Ret e
    | inr (nat_gateway_id, original_route) =>
        o <- pull_attempts 10 model_name ;;
        cleanup nat_gateway_id original_route ;;
        Ret (Finished o)
    end
  else
    o <- pull_attempts 10 model_name ;;
    Ret (Finished o).

(** Lines 332-343. *)
Definition list_ecs_tasks (cluster_name service_name : string) : Prog (list string) :=
  response <- call (ecs_list_tasks cluster_name service_name) ;;
  match response with
  | Ok taskArns => Ret taskArns
  | Raised => Ret []
  end.

(** Lines 353-361: [for task in tasks]; the answer of [stop_task], an
    exception included, is only logged. *)
Fixpoint stop_each (cluster_name : string) (tasks : list string) : Prog unit :=
  match tasks with
  | [] => Ret tt
  | task :: rest =>
      call (ecs_stop_task cluster_name task) ;;
      stop_each cluster_name rest
  end.

(** Lines 345-361. *)
Definition stop_ecs_tasks (cluster_name service_name : string) : Prog unit :=
  tasks <- list_ecs_tasks cluster_name service_name ;;
  match tasks with
  | [] => Ret tt
  | _ :: _ => stop_each cluster_name tasks
  end.

(** Lines 377-399, the [try] of [shutdown_ecs_service]. *)
Definition shutdown_calls (cluster_name service_name autoscaling_group_name : string)
  : Prog (Response string) :=
  scaled <- call (asg_update_auto_scaling_group autoscaling_group_name 0 0) ;;
  match scaled with
  | Raised => Ret (HTTPException 500)
  | Ok _ =>
      updated <- call (ecs_update_service cluster_name service_name 0 true) ;;
      match updated with
      | Raised => Ret (HTTPException 500)
      | Ok _ =>
          stop_ecs_tasks cluster_name service_name ;;
          Ret (Returned "success")
      end
  end.

(** Lines 363-399. *)
Definition shutdown_ecs_service : Prog (Response string) :=
  if_truthy (environ "CLUSTER_NAME")
    (fun cluster_name =>
       if_truthy (environ "SERVICE_NAME")
         (fun service_name =>
            if_truthy (environ "AUTOSCALING_GROUP_NAME")
              (fun autoscaling_group_name =>
                 shutdown_calls cluster_name service_name autoscaling_group_name)
              (Ret (HTTPException 400)))
         (Ret (HTTPException 400)))
    (Ret (HTTPException 400)).

(** Lines 445-448: [response['tasks'][0]['lastStatus']]; an empty
    [tasks] is an [IndexError], caught like every other exception. *)
Definition last_status (response : Result (list string)) : option string :=
  match response with
  | Ok (lastStatus :: _) => Some lastStatus
  | Ok [] => None
  | Raised => None
  end.

(** Lines 437-448. *)
Definition get_ecs_task_status (cluster_name task_arn : string) : Prog (option string) :=
  response <- call (ecs_describe_tasks cluster_name [task_arn]) ;;
  Ret (last_status response).

(** The dict that [selfhost_status] returns; [task_arn] is [None] when
    the key is absent. *)
Record Readiness : Type := {
  ready : bool;
  status : option string;
  task_arn : option string
}.

(** [status == "RUNNING"] *)
Definition is_running (status : option string) : bool :=
  match status with
  | Some s => String.eqb s "RUNNING"
  | None => false
  end.

(** Lines 462-470, after the environment check. *)
Definition status_of_service (cluster_name service_name : string) : Prog (Response Readiness) :=
  tasks <- list_ecs_tasks cluster_name service_name ;;
  match tasks with
  | [] => Ret (Returned {| ready := false; status := Some "NO_TASKS"; task_arn := None |})
  | first :: _ =>
      let latest_task_arn := last tasks first in
      status <- get_ecs_task_status cluster_name latest_task_arn ;;
      Ret (Returned {| ready := is_running status; status := status;
                       task_arn := Some latest_task_arn |})
  end.

(** Lines 450-470. *)
Definition selfhost_status : Prog (Response Readiness) :=
  if_truthy (environ "CLUSTER_NAME")
    (fun cluster_name =>
       if_truthy (environ "SERVICE_NAME")
         (fun service_name => status_of_service cluster_name service_name)
         (Ret (HTTPException 400)))
    (Ret (HTTPException 400)).

End App.

(** ** Reading a trace *)

(** The operations, by name. *)
Inductive Op : Type :=
| OpDescribeNatGateways | OpCreateNatGateway | OpReplaceRoute
| OpDeleteNatGateway | OpDescribeRouteTables | OpTimeSleep | OpAsyncioSleep
| OpPost | OpGet | OpListTasks | OpStopTask | OpDescribeTasks
| OpUpdateAutoScalingGroup | OpUpdateService.

Definition Op_eqb (a b : Op) : bool :=
  match a, b with
  | OpDescribeNatGateways, OpDescribeNatGateways
  | OpCreateNatGateway, OpCreateNatGateway
  | OpReplaceRoute, OpReplaceRoute
  | OpDeleteNatGateway, OpDeleteNatGateway
  | OpDescribeRouteTables, OpDescribeRouteTables
  | OpTimeSleep, OpTimeSleep
  | OpAsyncioSleep, OpAsyncioSleep
  | OpPost, OpPost
  | OpGet, OpGet
  | OpListTasks, OpListTasks
  | OpStopTask, OpStopTask
  | OpDescribeTasks, OpDescribeTasks
  | OpUpdateAutoScalingGroup, OpUpdateAutoScalingGroup
  | OpUpdateService, OpUpdateService => true
  | _, _ => false
  end.

(** The gateways for which a trace has a delete call. *)
Definition deleted_gateway (ev : Event) : option string :=
  match ev with
  | Called e _ =>
      match e with
      | ec2_delete_nat_gateway g => Some g
      | _ => None
      end
  end.

Fixpoint collect {A B : Type} (f : A -> option B) (l : list A) : list B :=
  match l with
  | [] => []
  | a :: l' =>
      match f a with
      | Some b => b :: collect f l'
      | None => collect f l'
      end
  end.

Definition delete_calls (t : list Event) : list string := collect deleted_gateway t.

(** The [replace_route] calls of a trace: table, destination, target and
    whether the call went through. *)
Definition replaced_route (ev : Event)
  : option (option string * string * Target * bool) :=
  match ev with
  | Called e x =>
      match e in E X return X -> option (option string * string * Target * bool) with
      | ec2_replace_route rtb dest target =>
          fun r => Some (rtb, dest, target,
                         match r with Ok _ => true | Raised => false end)
      | _ => fun _ => None
      end x
  end.

Definition replace_route_calls (t : list Event)
  : list (option string * string * Target * bool) := collect replaced_route t.

(** The answers to [GET /api/tags] in a trace, in order. *)
Definition tags_answer (ev : Event) : option (Result TagsResponse) :=
  match ev with
  | Called e x =>
      match e in E X return X -> option (Result TagsResponse) with
      | client_get _ => fun r => Some r
      | _ => fun _ => None
      end x
  end.

Definition tags_answers (t : list Event) : list (Result TagsResponse) :=
  collect tags_answer t.

(** The tasks for which a trace has a stop call, in order. *)
Definition stopped_task (ev : Event) : option string :=
  match ev with
  | Called e _ =>
      match e with
      | ecs_stop_task _ task => Some task
      | _ => None
      end
  end.

Definition stop_calls (t : list Event) : list string := collect stopped_task t.

(** The model names of the pull-trigger requests, in order. *)
Definition pull_request (ev : Event) : option string :=
  match ev with
  | Called e _ =>
      match e with
      | client_post _ name => Some name
      | _ => None
      end
  end.

Definition pull_requests (t : list Event) : list string := collect pull_request t.

(** ** A reference cloud

    One world to run the code against: a route table, NAT gateways that
    take time to become available, an Ollama backend that downloads models
    while time passes, a list of ECS tasks, and faults to inject.  It fixes
    what the operations of section 6 of the specification do; the theorems
    that quantify over every handler do not depend on it. *)

Record Gateway : Type := {
  gateway_id : string;
  gateway_subnet : string;
  ready_in : nat;        (* seconds until the state is "available" *)
  gateway_deleted : bool
}.

Record Cloud : Type := {
  table_id : string;
  routes : list Route;
  gateways : list Gateway;
  fresh_ids : list string;       (* identifiers for the gateways to create *)
  startup : nat;                 (* seconds a new gateway needs *)
  inventory : list string;       (* models the backend has *)
  downloads : list (string * nat); (* models being pulled, seconds left *)
  download_time : nat;           (* seconds a pull needs *)
  tasks : list (string * string);  (* task ARN and lastStatus *)
  unstoppable : list string;     (* tasks whose stop call raises *)
  faults : list (Op * nat);      (* the n-th call (from 0) of an operation raises *)
  history : list Op              (* operations called so far, latest first *)
}.

Definition gateway_state (g : Gateway) : string :=
  if gateway_deleted g then "deleted"
  else match ready_in g with
       | O => "available"
       | S _ => "pending"
       end.

Definition in_values (v : string) (values : list (option string)) : bool :=
  existsb (fun o => match o with Some s => String.eqb s v | None => false end) values.

Definition filter_matches (g : Gateway) (f : string * list (option string)) : bool :=
  let (name, values) := f in
  if String.eqb name "subnet-id" then in_values (gateway_subnet g) values
  else if String.eqb name "nat-gateway-id" then in_values (gateway_id g) values
  else if String.eqb name "state" then in_values (gateway_state g) values
  else false.

Definition targets_set (t : Target) : nat :=
  length (filter (fun o : option string => match o with Some _ => true | None => false end)
            [NatGatewayId t; GatewayId t; InstanceId t; NetworkInterfaceId t]).

Definition has_destination (dest : string) (r : Route) : bool :=
  match DestinationCidrBlock r with
  | Some d => String.eqb d dest
  | None => false
  end.

(** Replace the first route with that destination. *)
Fixpoint replace_first (dest : string) (target : Target) (rs : list Route) : list Route :=
  match rs with
  | [] => []
  | r :: rs' =>
      if has_destination dest r
      then {| DestinationCidrBlock := Some dest; route_target := target |} :: rs'
      else r :: replace_first dest target rs'
  end.

Definition mark_deleted (id : string) (g : Gateway) : Gateway :=
  if String.eqb (gateway_id g) id
  then {| gateway_id := gateway_id g; gateway_subnet := gateway_subnet g;
          ready_in := ready_in g; gateway_deleted := true |}
  else g.

Definition age_gateway (seconds : nat) (g : Gateway) : Gateway :=
  {| gateway_id := gateway_id g; gateway_subnet := gateway_subnet g;
     ready_in := ready_in g - seconds; gateway_deleted := gateway_deleted g |}.

Definition finished_downloads (seconds : nat) (ds : list (string * nat)) : list string :=
  map fst (filter (fun d => Nat.leb (snd d) seconds) ds).

Definition running_downloads (seconds : nat) (ds : list (string * nat)) : list (string * nat) :=
  map (fun d => (fst d, snd d - seconds)) (filter (fun d => negb (Nat.leb (snd d) seconds)) ds).

Definition with_history (w : Cloud) (hist : list Op) : Cloud :=
  {| table_id := table_id w; routes := routes w; gateways := gateways w;
     fresh_ids := fresh_ids w; startup := startup w; inventory := inventory w;
     downloads := downloads w; download_time := download_time w; tasks := tasks w;
     unstoppable := unstoppable w; faults := faults w; history := hist |}.

Definition with_routes (w : Cloud) (rs : list Route) : Cloud :=
  {| table_id := table_id w; routes := rs; gateways := gateways w;
     fresh_ids := fresh_ids w; startup := startup w; inventory := inventory w;
     downloads := downloads w; download_time := download_time w; tasks := tasks w;
     unstoppable := unstoppable w; faults := faults w; history := history w |}.

Definition with_gateways (w : Cloud) (gs : list Gateway) (ids : list string) : Cloud :=
  {| table_id := table_id w; routes := routes w; gateways := gs;
     fresh_ids := ids; startup := startup w; inventory := inventory w;
     downloads := downloads w; download_time := download_time w; tasks := tasks w;
     unstoppable := unstoppable w; faults := faults w; history := history w |}.

Definition with_backend (w : Cloud) (inv : list string) (ds : list (string * nat)) : Cloud :=
  {| table_id := table_id w; routes := routes w; gateways := gateways w;
     fresh_ids := fresh_ids w; startup := startup w; inventory := inv;
     downloads := ds; download_time := download_time w; tasks := tasks w;
     unstoppable := unstoppable w; faults := faults w; history := history w |}.

Definition with_tasks (w : Cloud) (ts : list (string * string)) : Cloud :=
  {| table_id := table_id w; routes := routes w; gateways := gateways w;
     fresh_ids := fresh_ids w; startup := startup w; inventory := inventory w;
     downloads := downloads w; download_time := download_time w; tasks := ts;
     unstoppable := unstoppable w; faults := faults w; history := history w |}.

(** Time passes: gateways and downloads get [seconds] closer to done. *)
Definition elapse (seconds : nat) (w : Cloud) : Cloud :=
  with_backend
    (with_gateways w (map (age_gateway seconds) (gateways w)) (fresh_ids w))
    (inventory w ++ finished_downloads seconds (downloads w))
    (running_downloads seconds (downloads w)).

Definition calls_so_far (o : Op) (w : Cloud) : nat :=
  length (filter (Op_eqb o) (history w)).

Definition faulty (o : Op) (w : Cloud) : bool :=
  existsb (fun f => Op_eqb (fst f) o && Nat.eqb (snd f) (calls_so_far o w)) (faults w).

(** Record the call; raise when a fault is planned for it. *)
Definition guarded {A : Type} (o : Op) (w : Cloud) (k : Cloud -> Result A * Cloud)
  : Result A * Cloud :=
  let w' := with_history w (o :: history w) in
  if faulty o w then (Raised, w') else k w'.

Definition stop_status (task : string) (t : string * string) : string * string :=
  if String.eqb (fst t) task then (fst t, "STOPPED") else t.

Definition cloud : forall X : Type, E X -> Cloud -> X * Cloud :=
  fun X e =>
    match e in E X return Cloud -> X * Cloud with
    | ec2_describe_nat_gateways Filters => fun w =>
        guarded OpDescribeNatGateways w (fun w =>
          (Ok (map gateway_id
                 (filter (fun g => forallb (filter_matches g) Filters) (gateways w))), w))
    | ec2_create_nat_gateway SubnetId AllocationId => fun w =>
        guarded OpCreateNatGateway w (fun w =>
          match SubnetId, AllocationId, fresh_ids w with
          | Some subnet, Some _, id :: ids =>
              (Ok id,
               with_gateways w
                 (gateways w ++ [{| gateway_id := id; gateway_subnet := subnet;
                                    ready_in := startup w; gateway_deleted := false |}])
                 ids)
          | _, _, _ => (Raised, w)
          end)
    | ec2_replace_route RouteTableId Destination target => fun w =>
        guarded OpReplaceRoute w (fun w =>
          match RouteTableId with
          | Some rtb =>
              if String.eqb rtb (table_id w) && Nat.eqb (targets_set target) 1
                 && existsb (has_destination Destination) (routes w)
              then (Ok tt, with_routes w (replace_first Destination target (routes w)))
              else (Raised, w)
          | None => (Raised, w)
          end)
    | ec2_delete_nat_gateway id => fun w =>
        guarded OpDeleteNatGateway w (fun w =>
          if existsb (fun g => String.eqb (gateway_id g) id && negb (gateway_deleted g))
               (gateways w)
          then (Ok tt, with_gateways w (map (mark_deleted id) (gateways w)) (fresh_ids w))
          else (Raised, w))
    | ec2_describe_route_tables RouteTableIds => fun w =>
        guarded OpDescribeRouteTables w (fun w =>
          match RouteTableIds with
          | [Some rtb] =>
              if String.eqb rtb (table_id w) then (Ok [routes w], w) else (Raised, w)
          | _ => (Raised, w)
          end)
    | time_sleep seconds => fun w =>
        (tt, elapse seconds (with_history w (OpTimeSleep :: history w)))
    | asyncio_sleep seconds => fun w =>
        (tt, elapse seconds (with_history w (OpAsyncioSleep :: history w)))
    | client_post _ name => fun w =>
        guarded OpPost w (fun w =>
          if existsb (String.eqb name) (inventory w ++ map fst (downloads w))
          then (Ok 200, w)
          else (Ok 200, with_backend w (inventory w)
                          (downloads w ++ [(name, download_time w)])))
    | client_get _ => fun w =>
        guarded OpGet w (fun w =>
          (Ok {| status_code := 200; json_models := Ok (map Some (inventory w)) |}, w))
    | ecs_list_tasks _ _ => fun w =>
        guarded OpListTasks w (fun w => (Ok (map fst (tasks w)), w))
    | ecs_stop_task _ task => fun w =>
        guarded OpStopTask w (fun w =>
          if existsb (String.eqb task) (unstoppable w) then (Raised, w)
          else (Ok tt, with_tasks w (map (stop_status task) (tasks w))))
    | ecs_describe_tasks _ arns => fun w =>
        guarded OpDescribeTasks w (fun w =>
          (Ok (map snd (filter (fun t => existsb (String.eqb (fst t)) arns) (tasks w))), w))
    | asg_update_auto_scaling_group _ _ _ => fun w =>
        guarded OpUpdateAutoScalingGroup w (fun w => (Ok tt, w))
    | ecs_update_service _ _ _ _ => fun w =>
        guarded OpUpdateService w (fun w => (Ok tt, w))
    end.

(** The default route of the reference cloud's route table. *)
Definition default_route (w : Cloud) : option Target :=
  option_map route_target (find is_default_route (routes w)).

(** A deployment: the environment of the process and a cloud with an
    internet gateway as default route and nothing else. *)
Definition deployment (key : string) : option string :=
  if String.eqb key "OLLAMA_HOST" then Some "http://ollama:11434"
  else if String.eqb key "SUBNET_ID" then Some "subnet-1"
  else if String.eqb key "ALLOCATION_ID" then Some "eipalloc-1"
  else if String.eqb key "ROUTE_TABLE_ID" then Some "rtb-1"
  else if String.eqb key "CLUSTER_NAME" then Some "cluster"
  else if String.eqb key "SERVICE_NAME" then Some "ollama"
  else if String.eqb key "AUTOSCALING_GROUP_NAME" then Some "asg"
  else None.

Definition via_internet_gateway : Target :=
  {| NatGatewayId := None; GatewayId := Some "igw-1";
     InstanceId := None; NetworkInterfaceId := None |}.

Definition fresh_cloud : Cloud :=
  {| table_id := "rtb-1";
     routes := [{| DestinationCidrBlock := Some "10.0.0.0/16"; route_target := no_target |};
                {| DestinationCidrBlock := Some "0.0.0.0/0";
                   route_target := via_internet_gateway |}];
     gateways := [];
     fresh_ids := ["nat-new"];
     startup := 45;
     inventory := [];
     downloads := [];
     download_time := 150;
     tasks := [];
     unstoppable := [];
     faults := [];
     history := [] |}.

(** The same deployment with an available gateway already in the subnet. *)
Definition cloud_with_gateway : Cloud :=
  with_gateways fresh_cloud
    [{| gateway_id := "nat-old"; gateway_subnet := "subnet-1";
        ready_in := 0; gateway_deleted := false |}]
    ["nat-new"].

Definition with_faults (w : Cloud) (fs : list (Op * nat)) : Cloud :=
  {| table_id := table_id w; routes := routes w; gateways := gateways w;
     fresh_ids := fresh_ids w; startup := startup w; inventory := inventory w;
     downloads := downloads w; download_time := download_time w; tasks := tasks w;
     unstoppable := unstoppable w; faults := fs; history := history w |}.

Definition with_startup (w : Cloud) (seconds : nat) : Cloud :=
  {| table_id := table_id w; routes := routes w; gateways := gateways w;
     fresh_ids := fresh_ids w; startup := seconds; inventory := inventory w;
     downloads := downloads w; download_time := download_time w; tasks := tasks w;
     unstoppable := unstoppable w; faults := faults w; history := history w |}.

Definition with_download_time (w : Cloud) (seconds : nat) : Cloud :=
  {| table_id := table_id w; routes := routes w; gateways := gateways w;
     fresh_ids := fresh_ids w; startup := startup w; inventory := inventory w;
     downloads := downloads w; download_time := seconds; tasks := tasks w;
     unstoppable := unstoppable w; faults := faults w; history := history w |}.

Definition with_unstoppable (w : Cloud) (ts : list string) : Cloud :=
  {| table_id := table_id w; routes := routes w; gateways := gateways w;
     fresh_ids := fresh_ids w; startup := startup w; inventory := inventory w;
     downloads := downloads w; download_time := download_time w; tasks := tasks w;
     unstoppable := ts; faults := faults w; history := history w |}.


(** More observations of a trace. *)

(** The answers to the create calls. *)
Definition create_answer (ev : Event) : option (Result string) :=
  match ev with
  | Called e x =>
      match e in E X return X -> option (Result string) with
      | ec2_create_nat_gateway _ _ => fun r => Some r
      | _ => fun _ => None
      end x
  end.

Definition create_answers (t : list Event) : list (Result string) :=
  collect create_answer t.

(** The answers to the availability polls, the [describe_nat_gateways]
    calls that filter on ["nat-gateway-id"]. *)
Definition poll_answer (ev : Event) : option (Result (list string)) :=
  match ev with
  | Called e x =>
      match e in E X return X -> option (Result (list string)) with
      | ec2_describe_nat_gateways ((name, _) :: _) =>
          fun r => if String.eqb name "nat-gateway-id" then Some r else None
      | _ => fun _ => None
      end x
  end.

Definition poll_answers (t : list Event) : list (Result (list string)) :=
  collect poll_answer t.

(** The answer to the query for an available gateway in the subnet, when
    the trace starts with it. *)
Definition discovery (t : list Event) : option (Result (list string)) :=
  match t with
  | Called e x :: _ =>
      match e in E X return X -> option (Result (list string)) with
      | ec2_describe_nat_gateways ((name, _) :: _) =>
          fun r => if String.eqb name "subnet-id" then Some r else None
      | _ => fun _ => None
      end x
  | [] => None
  end.

(** The gateway a run found available and went on with (line 174). *)
Definition reused_gateway (t : list Event) : option string :=
  match discovery t with
  | Some (Ok (g :: _)) => if nonempty g then Some g else None
  | _ => None
  end.

(** The answers to [describe_route_tables]. *)
Definition route_table_answer (ev : Event) : option (Result (list (list Route))) :=
  match ev with
  | Called e x =>
      match e in E X return X -> option (Result (list (list Route))) with
      | ec2_describe_route_tables _ => fun r => Some r
      | _ => fun _ => None
      end x
  end.

(** The snapshot a run captured (line 172), [None] when it captured none. *)
Definition captured_snapshot (t : list Event) : option Target :=
  match collect route_table_answer t with
  | r :: _ => snapshot_of r
  | [] => None
  end.

(** In a run of [pull_model_task] line 192 comes before line 225: the
    attach is the first [replace_route] call and the restore the second
    ([replace_route_calls_of_run] below). *)
Definition attach_issued (t : list Event) : bool :=
  match replace_route_calls t with
  | _ :: _ => true
  | [] => false
  end.

Definition gateway_attached (t : list Event) : bool :=
  match replace_route_calls t with
  | (_, _, _, ok) :: _ => ok
  | [] => false
  end.

Definition restore_issued (t : list Event) : bool :=
  match replace_route_calls t with
  | _ :: _ :: _ => true
  | _ => false
  end.

Definition restore_target (t : list Event) : option Target :=
  match replace_route_calls t with
  | _ :: (_, _, target, _) :: _ => Some target
  | _ => None
  end.

Definition route_restored (t : list Event) : bool :=
  match replace_route_calls t with
  | _ :: (_, _, _, ok) :: _ => ok
  | _ => false
  end.

Definition teardown_ran (t : list Event) : bool :=
  match delete_calls t with
  | _ :: _ => true
  | [] => false
  end.

(** The answers to [list_tasks] and what [list_ecs_tasks] makes of the
    first one. *)
Definition list_answer (ev : Event) : option (Result (list string)) :=
  match ev with
  | Called e x =>
      match e in E X return X -> option (Result (list string)) with
      | ecs_list_tasks _ _ => fun r => Some r
      | _ => fun _ => None
      end x
  end.

Definition listed_tasks (t : list Event) : list string :=
  match collect list_answer t with
  | Ok taskArns :: _ => taskArns
  | _ => []
  end.

(** The [describe_tasks] calls: the tasks asked about and the answer. *)
Definition describe_tasks_call (ev : Event) : option (list string * Result (list string)) :=
  match ev with
  | Called e x =>
      match e in E X return X -> option (list string * Result (list string)) with
      | ecs_describe_tasks _ arns => fun r => Some (arns, r)
      | _ => fun _ => None
      end x
  end.

Definition describe_tasks_calls (t : list Event) : list (list string * Result (list string)) :=
  collect describe_tasks_call t.

(** ** The shape of a run *)

(** A loop that tries up to [n] times and leaves at the first hit:
    [answers] are what the tries saw, [stopped] tells whether it left
    through [break]. *)
Definition attempts {A : Type} (hit : A -> bool) (n : nat) (answers : list A)
  (stopped : bool) : Prop :=
  if stopped then
    exists earlier last,
      answers = earlier ++ [last] /\
      forallb (fun a => negb (hit a)) earlier = true /\
      hit last = true /\
      length answers <= n
  else
    length answers = n /\ forallb (fun a => negb (hit a)) answers = true.

Definition stopped_by (o : PullOutcome) : bool :=
  match o with
  | Success => true
  | NotAvailableAfterRetries => false
  end.

Section Shape.

Variable environ : string -> option string.

(** One availability poll: the query, and the wait when it saw nothing. *)
Definition poll_events (g : string) (a : Result (list string)) : list Event :=
  Called (poll_call g) a ::
  (if gateway_seen a then [] else [Called (time_sleep 15) tt]).

(** One round of the pull loop: trigger, wait, look at the inventory. *)
Definition round_events (model_name : string) (r : Result nat * Result TagsResponse)
  : list Event :=
  [Called (pull_call environ model_name) (fst r);
   Called (asyncio_sleep 60) tt;
   Called (tags_call environ) (snd r)].

(** Lines 221-225. *)
Definition teardown_events (g : string) (snapshot : option Target)
  (deleted restored : Result unit) : list Event :=
  Called (ec2_delete_nat_gateway g) deleted ::
  match snapshot with
  | Some o => [Called (restore_call environ o) restored]
  | None => []
  end.

(** The query of line 171 came back without a gateway to go on with:
    an empty list, or a first identifier that is the empty string. *)
Definition nothing_found (found : Result (list string)) : bool :=
  match found with
  | Ok [] => true
  | Ok (g :: _) => negb (nonempty g)
  | Raised => false
  end.

(** How a run got its gateway [g]: it found it (no call), or it created
    it and polled until it saw it. *)
Inductive Acquired (g : string) : Result (list string) -> list Event -> Prop :=
| acquired_reused rest :
    nonempty g = true ->
    Acquired g (Ok (g :: rest)) []
| acquired_created found polls :
    nothing_found found = true ->
    nonempty g = true ->
    attempts gateway_seen 40 polls true ->
    Acquired g found
      (Called (create_call environ) (Ok g) :: flat_map (poll_events g) polls).

(** The five ways a run of [pull_model_task] can go, with the trace each
    leaves behind. *)
Inductive Shape (model_name : string) : TaskEnd -> list Event -> Prop :=
| shape_no_egress rounds o :
    nonempty (os_getenv environ "OLLAMA_HOST" "") = false ->
    attempts (fun r => model_listed model_name (snd r)) 10 rounds (stopped_by o) ->
    Shape model_name (Finished o) (flat_map (round_events model_name) rounds)
| shape_propagated :
    nonempty (os_getenv environ "OLLAMA_HOST" "") = true ->
    Shape model_name Propagated [Called (check_call environ) Raised]
| shape_create_failed found snap created :
    nonempty (os_getenv environ "OLLAMA_HOST" "") = true ->
    nothing_found found = true ->
    truthy (created_id created) = false ->
    Shape model_name CreateFailed
      [Called (check_call environ) found; Called (snapshot_call environ) snap;
       Called (create_call environ) created]
| shape_timeout found snap g polls :
    nonempty (os_getenv environ "OLLAMA_HOST" "") = true ->
    nothing_found found = true ->
    nonempty g = true ->
    attempts gateway_seen 40 polls false ->
    Shape model_name ProvisioningTimeout
      (Called (check_call environ) found :: Called (snapshot_call environ) snap ::
       Called (create_call environ) (Ok g) :: flat_map (poll_events g) polls)
| shape_finished found snap g acquire attached rounds o deleted restored :
    nonempty (os_getenv environ "OLLAMA_HOST" "") = true ->
    Acquired g found acquire ->
    attempts (fun r => model_listed model_name (snd r)) 10 rounds (stopped_by o) ->
    Shape model_name (Finished o)
      (Called (check_call environ) found :: Called (snapshot_call environ) snap ::
       acquire ++
       Called (attach_call environ g) attached :: Called (time_sleep 20) tt ::
       flat_map (round_events model_name) rounds ++
       teardown_events g (snapshot_of snap) deleted restored).

End Shape.

(** Three tasks, the first of which cannot be stopped. *)
Definition three_tasks : Cloud :=
  with_unstoppable
    (with_tasks fresh_cloud
       [("task-1", "RUNNING"); ("task-2", "RUNNING"); ("task-3", "PENDING")])
    ["task-1"].

(** What a [replace_route] call of a trace does to the routes of the
    reference cloud: a call that went through replaces the first route with
    its destination, a call that raised changes nothing. *)
Definition route_change (c : option string * string * Target * bool)
  (rs : list Route) : list Route :=
  match c with
  | (_, dest, target, true) => replace_first dest target rs
  | (_, _, _, false) => rs
  end.

Definition routes_after (t : list Event) (rs : list Route) : list Route :=
  fold_left (fun rs c => route_change c rs) (replace_route_calls t) rs.

(** A trace is what a handler answers from a world, call by call. *)
Fixpoint consistent {W : Type} (h : forall X : Type, E X -> W -> X * W)
  (w : W) (t : list Event) (w' : W) : Prop :=
  match t with
  | [] => w' = w
  | Called e x :: t' => fst (h _ e w) = x /\ consistent h (snd (h _ e w)) t' w'
  end.

(** ** More of [app.py] *)

(** What [check_model] returns: ["model"] is the entry that was found, an
    entry being known by its name as in [TagsResponse]; [None] when the
    key is absent. *)
Record Availability : Type := {
  available : bool;
  model : option (option string)
}.

(** One entry that [list_models] builds for a model of the backend. *)
Record OllamaModel : Type := {
  value : string;
  label : string
}.

Section MoreApp.

Variable environ : string -> option string.

(** Lines 415-435, the [try] of [start_ecs_service]. *)
Definition start_calls (cluster_name service_name autoscaling_group_name : string)
  : Prog (Response string) :=
  scaled <- call (asg_update_auto_scaling_group autoscaling_group_name 1 0) ;;
  match scaled with
  | Raised => Ret (HTTPException 500)
  | Ok _ =>
      updated <- call (ecs_update_service cluster_name service_name 1 true) ;;
      match updated with
      | Raised => Ret (HTTPException 500)
      | Ok _ => Ret (Returned "success")
      end
  end.

(** Lines 402-435. *)
Definition start_ecs_service : Prog (Response string) :=
  if_truthy (environ "CLUSTER_NAME")
    (fun cluster_name =>
       if_truthy (environ "SERVICE_NAME")
         (fun service_name =>
            if_truthy (environ "AUTOSCALING_GROUP_NAME")
              (fun autoscaling_group_name =>
                 start_calls cluster_name service_name autoscaling_group_name)
              (Ret (HTTPException 400)))
         (Ret (HTTPException 400)))
    (Ret (HTTPException 400)).

(** Lines 244-255: what [check_model] makes of the answer.  Nothing here
    is inside a [try]: an exception of the request or of [resp.json()]
    leaves the handler ([Raised]). *)
Definition availability_of (model_name : string) (resp : Result TagsResponse)
  : Result (Response Availability) :=
  match resp with
  | Raised => Raised
  | Ok r =>
      if negb (Nat.eqb (status_code r) 200) then Ok (HTTPException (status_code r))
      else
        match json_models r with
        | Raised => Raised
        | Ok models =>
            match find (name_is model_name) models with
            | Some m => Ok (Returned {| available := true; model := Some m |})
            | None => Ok (Returned {| available := false; model := None |})
            end
        end
  end.

(** Lines 237-255. *)
Definition check_model (model_name : string) : Prog (Result (Response Availability)) :=
  resp <- call (tags_call environ) ;;
  Ret (availability_of model_name resp).

(** [resp.raise_for_status()], a method of the HTTP library: the status
    codes for which it raises. *)
Variable raises_for_status : nat -> bool.

(** [models.values()] of the module [enterprise_models], which is not
    part of the sources: the lists of enterprise models, of whatever
    type. *)
Variable Enterprise : Type.
Variable models_values : list (list Enterprise).

(** [m['name']] for every entry: a [KeyError] ([None]) as soon as one
    entry has no name. *)
Fixpoint names_of (entries : list (option string)) : option (list string) :=
  match entries with
  | [] => Some []
  | Some n :: rest =>
      match names_of rest with
      | Some ns => Some (n :: ns)
      | None => None
      end
  | None :: _ => None
  end.

(** Lines 503-504. *)
Definition ollama_model (name : string) : OllamaModel :=
  {| value := "ollama/" ++ name; label := "ollama (" ++ name ++ ")" |}.

(** Lines 494-508: [ollama_models] after the [try]; it stays [[]] when
    anything inside raised. *)
Definition ollama_models_of (resp : Result TagsResponse) : list OllamaModel :=
  match resp with
  | Raised => []
  | Ok r =>
      if raises_for_status (status_code r) then []
      else
        match json_models r with
        | Raised => []
        | Ok entries =>
            match names_of entries with
            | Some names => map ollama_model names
            | None => []
            end
        end
  end.

(** Lines 487-511; [sum(models.values(), [])] is [concat]. *)
Definition list_models : Prog (list (OllamaModel + Enterprise)) :=
  let enterprise_models := concat models_values in
  resp <- call (tags_call environ) ;;
  Ret (map inl (ollama_models_of resp) ++ map inr enterprise_models).

End MoreApp.

(** ** More observations *)

(** The seconds a trace spends in [time.sleep] and [asyncio.sleep]. *)
Definition slept (ev : Event) : option nat :=
  match ev with
  | Called e _ =>
      match e with
      | time_sleep seconds => Some seconds
      | asyncio_sleep seconds => Some seconds
      | _ => None
      end
  end.

Definition seconds_slept (t : list Event) : nat := list_sum (collect slept t).

(** A call to the cloud control API (EC2, ECS, autoscaling). *)
Definition cloud_call (ev : Event) : bool :=
  match ev with
  | Called e _ =>
      match e with
      | time_sleep _ | asyncio_sleep _ | client_post _ _ | client_get _ => false
      | _ => true
      end
  end.

(** A call that changes something in the cloud account. *)
Definition mutates (ev : Event) : bool :=
  match ev with
  | Called e _ =>
      match e with
      | ec2_create_nat_gateway _ _ | ec2_replace_route _ _ _
      | ec2_delete_nat_gateway _ | ecs_stop_task _ _
      | asg_update_auto_scaling_group _ _ _ | ecs_update_service _ _ _ _ => true
      | _ => false
      end
  end.

(** The gateway of the attach call of a run (see [attach_issued]). *)
Definition attached_gateway (t : list Event) : list string :=
  match replace_route_calls t with
  | (_, _, target, _) :: _ =>
      match NatGatewayId target with
      | Some g => [g]
      | None => []
      end
  | [] => []
  end.

(** The deployment without [OLLAMA_HOST] in the environment. *)
Definition no_host (key : string) : option string :=
  if String.eqb key "OLLAMA_HOST" then None else deployment key.

(** The deployment with the default route already on the available
    gateway of the subnet. *)
Definition cloud_on_gateway : Cloud :=
  with_routes cloud_with_gateway
    [{| DestinationCidrBlock := Some "0.0.0.0/0";
        route_target := {| NatGatewayId := Some "nat-old"; GatewayId := None;
                           InstanceId := None; NetworkInterfaceId := None |} |}].

(** The deployment without [SERVICE_NAME] in the environment. *)
Definition no_service (key : string) : option string :=
  if String.eqb key "SERVICE_NAME" then None else deployment key.

(** ** The event stream of [generate_stream]

    Lines 271-330.  The completion library is outside the sources: its
    call is a function of the parameters, and its answer a stream of
    chunks that may break off with an exception. *)

(** A value, or the exception raised instead, with [str(e)]. *)
Inductive Thrown (A : Type) : Type :=
| Fine (a : A)
| Threw (message : string).
Arguments Fine {A} a.
Arguments Threw {A} message.

Definition LF : Ascii.ascii := Ascii.ascii_of_nat 10.
Definition CR : Ascii.ascii := Ascii.ascii_of_nat 13.

(** [s.replace(c, new)] for a one-character [c]. *)
Fixpoint replace_char (c : Ascii.ascii) (new : string) (s : string) : string :=
  match s with
  | EmptyString => EmptyString
  | String a s' =>
      if Ascii.eqb a c then new ++ replace_char c new s'
      else String a (replace_char c new s')
  end.

(** Line 309: a line feed becomes backslash-n, a carriage return
    backslash-r. *)
Definition escaped_content (content : string) : string :=
  replace_char CR "\r" (replace_char LF "\n" content).

(** [f"data: {payload}\n\n"] *)
Definition sse_frame (payload : string) : string :=
  "data: " ++ payload ++ String LF (String LF EmptyString).

(** A chunk of the answer, known by what the code reads from it: the
    value of [chunk.get("choices", [{}])[0].get("delta", {}).get("content")]
    (line 303), which raises for instance on an empty [choices], and
    [chunk.get("completion")]. *)
Record Chunk : Type := {
  delta_content : Thrown (option string);
  completion : option string
}.

(** What [async for chunk in response] goes through. *)
Inductive Stream : Type :=
| stream_end
| stream_raise (message : string)
| stream_chunk (chunk : Chunk) (rest : Stream).

Section GenerateStream.

Variable environ : string -> option string.

(** An entry of ["messages"], of whatever shape. *)
Variable Message : Type.

(** Lines 287-297: the keyword arguments of [acompletion]; [temperature]
    holds the literal of the source. *)
Record Parameters : Type := {
  param_model : string;
  param_messages : list Message;
  param_stream : bool;
  param_temperature : option string;
  param_aws_region_name : option string;
  param_api_base : option string
}.

Definition parameters_for (model_name : string) (messages : list Message) : Parameters :=
  if String.prefix "bedrock/" model_name then
    {| param_model := model_name; param_messages := messages; param_stream := true;
       param_temperature := Some "0.7"; param_aws_region_name := Some "us-east-1";
       param_api_base := None |}
  else if String.prefix "ollama/" model_name then
    {| param_model := model_name; param_messages := messages; param_stream := true;
       param_temperature := None; param_aws_region_name := None;
       param_api_base := Some (OLLAMA_HOST environ) |}
  else
    {| param_model := model_name; param_messages := messages; param_stream := true;
       param_temperature := None; param_aws_region_name := None;
       param_api_base := None |}.

(** Line 319, the [except] of the generator. *)
Definition error_frame (message : string) : string :=
  sse_frame ("Error: " ++ message).

(** Lines 302-313: the frames for the chunks, then [[DONE]]; an exception
    ends the stream with an error frame. *)
Fixpoint relay (response : Stream) : list string :=
  match response with
  | stream_end => [sse_frame "[DONE]"]
  | stream_raise message => [error_frame message]
  | stream_chunk chunk rest =>
      match delta_content chunk with
      | Threw message => [error_frame message]
      | Fine content =>
          let content := if truthy content then content else completion chunk in
          if_truthy content
            (fun c => sse_frame (escaped_content c) :: relay rest)
            (relay rest)
      end
  end.

(** Lines 275-319, [event_stream].  [messages] is [None] when the key is
    absent or its value is not a list; [model_name] is [None] when the key
    is absent, and [model_name.startswith] then raises. *)
Definition event_stream (messages : option (list Message)) (model_name : option string)
  (acompletion : Parameters -> Thrown Stream) : list string :=
  match messages with
  | None | Some [] =>
      [sse_frame "Error: 'messages' must be a list of {'role', 'content'} dicts."]
  | Some (first :: others) =>
      match model_name with
      | None => [error_frame "'NoneType' object has no attribute 'startswith'"]
      | Some model_name =>
          match acompletion (parameters_for model_name (first :: others)) with
          | Threw message => [error_frame message]
          | Fine response => relay response
          end
      end
  end.

End GenerateStream.

(** Whether a character occurs in a string. *)
Fixpoint occurs (c : Ascii.ascii) (s : string) : bool :=
  match s with
  | EmptyString => false
  | String a s' => Ascii.eqb a c || occurs c s'
  end.

(** ** What the statements about the inventory and the tasks say *)

(** The inventory answer contains the model: the request was answered with
    status 200 and a body whose models include one of that name. *)
Definition inventory_lists (model_name : string) (answer : Result TagsResponse) : Prop :=
  exists r models,
    answer = Ok r /\ status_code r = 200 /\ json_models r = Ok models /\
    In (Some model_name) models.

(** A scripted backend: every pull trigger raises, every inventory request
    gets the next answer of the script ([Raised] once the script is used
    up), and every call to the cloud raises. *)
Definition scripted : forall X : Type,
    E X -> list (Result TagsResponse) -> X * list (Result TagsResponse) :=
  fun X e =>
    match e in E X
          return list (Result TagsResponse) -> X * list (Result TagsResponse) with
    | client_get _ => fun script =>
        match script with
        | answer :: rest => (answer, rest)
        | [] => (Raised, [])
        end
    | client_post _ _ => fun script => (Raised, script)
    | time_sleep _ => fun script => (tt, script)
    | asyncio_sleep _ => fun script => (tt, script)
    | ec2_describe_nat_gateways _ => fun script => (Raised, script)
    | ec2_create_nat_gateway _ _ => fun script => (Raised, script)
    | ec2_replace_route _ _ _ => fun script => (Raised, script)
    | ec2_delete_nat_gateway _ => fun script => (Raised, script)
    | ec2_describe_route_tables _ => fun script => (Raised, script)
    | ecs_list_tasks _ _ => fun script => (Raised, script)
    | ecs_stop_task _ _ => fun script => (Raised, script)
    | ecs_describe_tasks _ _ => fun script => (Raised, script)
    | asg_update_auto_scaling_group _ _ _ => fun script => (Raised, script)
    | ecs_update_service _ _ _ _ => fun script => (Raised, script)
    end.

(** Inventory answers that do not contain ["llama3"], each for another
    reason: a status other than 200, an exception, a body that does not
    decode, an entry without a name next to one of another name. *)
Definition answers_without_llama3 : list (Result TagsResponse) :=
  [Ok {| status_code := 404; json_models := Ok [Some "llama3"] |};
   Raised;
   Ok {| status_code := 200; json_models := Raised |};
   Ok {| status_code := 200; json_models := Ok [None; Some "llama"] |}].

Definition answer_with_llama3 : Result TagsResponse :=
  Ok {| status_code := 200; json_models := Ok [Some "mistral"; Some "llama3"] |}.

(** Two tasks, the last of which is running. *)
Definition running_tasks : Cloud :=
  with_tasks fresh_cloud [("task-1", "STOPPED"); ("task-2", "RUNNING")].

(** The deployment with an available gateway in the subnet and the default
    route on an instance, which the route table reports together with the
    network interface of the instance. *)
Definition cloud_via_instance : Cloud :=
  with_routes cloud_with_gateway
    [{| DestinationCidrBlock := Some "0.0.0.0/0";
        route_target := {| NatGatewayId := None; GatewayId := Some "";
                           InstanceId := Some "i-1";
                           NetworkInterfaceId := Some "eni-1" |} |}].

(** A call that belongs to the pull loop: a request to the backend or the
    wait between the two requests of a round. *)
Definition backend_event (ev : Event) : bool :=
  match ev with
  | Called e _ =>
      match e with
      | client_post _ _ | client_get _ | asyncio_sleep _ => true
      | _ => false
      end
  end.

(** * Properties *)

(** ** Running *)

Lemma run_bind {W : Type} (h : forall X : Type, E X -> W -> X * W)
  {A B : Type} (p : Prog A) (f : A -> Prog B) (w : W) :
  run h (bind p f) w =
  let '(a, w1, t1) := run h p w in
  let '(b, w2, t2) := run h (f a) w1 in
  (b, w2, t1 ++ t2).
Proof.
  revert w. induction p as [a | X e k IH]; intros w; simpl.
  - destruct (run h (f a) w) as [[b w2] t2]. reflexivity.
  - destruct (h X e w) as [x w1]. rewrite IH.
    destruct (run h (k x) w1) as [[a w2] t1].
    destruct (run h (f a) w2) as [[b w3] t2]. reflexivity.
Qed.

Lemma run_consistent {W : Type} (h : forall X : Type, E X -> W -> X * W)
  {R : Type} (p : Prog R) (w : W) :
  consistent h w (trace_of h p w) (world_of h p w).
Proof.
  unfold trace_of, world_of. revert w.
  induction p as [r | X e k IH]; intros w; simpl.
  - reflexivity.
  - destruct (h X e w) as [x w1] eqn:Hh. specialize (IH x w1).
    destruct (run h (k x) w1) as [[r w2] t]. simpl in *.
    rewrite Hh. simpl. split; [reflexivity | exact IH].
Qed.

Lemma consistent_app {W : Type} (h : forall X : Type, E X -> W -> X * W)
  (t1 t2 : list Event) (w w' : W) :
  consistent h w (t1 ++ t2) w' ->
  exists w1, consistent h w t1 w1 /\ consistent h w1 t2 w'.
Proof.
  revert w. induction t1 as [| [X e x] t1 IH]; intros w H; simpl in *.
  - exists w. split; [reflexivity | exact H].
  - destruct H as [Hx H]. destruct (IH _ H) as [w1 [H1 H2]].
    exists w1. repeat split; assumption.
Qed.

(** ** Loops that leave at the first hit *)

Lemma attempts_miss {A : Type} (hit : A -> bool) (n : nat) (a : A)
  (answers : list A) (stopped : bool) :
  hit a = false ->
  attempts hit n answers stopped ->
  attempts hit (S n) (a :: answers) stopped.
Proof.
  intros Ha. unfold attempts. destruct stopped.
  - intros (earlier & last & -> & Hearlier & Hlast & Hlen).
    exists (a :: earlier), last. simpl. rewrite Ha. simpl.
    repeat split; auto. simpl in Hlen. lia.
  - intros [Hlen Hall]. simpl. rewrite Ha, Hlen. auto.
Qed.

Lemma attempts_hit {A : Type} (hit : A -> bool) (n : nat) (a : A) :
  hit a = true -> attempts hit (S n) [a] true.
Proof.
  intros Ha. exists [], a. simpl. repeat split; auto. lia.
Qed.

Lemma attempts_length {A : Type} (hit : A -> bool) (n : nat)
  (answers : list A) (stopped : bool) :
  attempts hit n answers stopped -> length answers <= n.
Proof.
  unfold attempts. destruct stopped.
  - intros (earlier & last & _ & _ & _ & H). exact H.
  - intros [H _]. lia.
Qed.

Lemma forallb_miss_app {A : Type} (hit : A -> bool) (earlier : list A) (last : A) :
  hit last = true ->
  forallb (fun a => negb (hit a)) (earlier ++ [last]) = false.
Proof.
  intros H. rewrite forallb_app. simpl. rewrite H. simpl.
  apply andb_false_r.
Qed.

(** Whether the loop left through [break] can be read off the answers. *)
Lemma attempts_stopped {A : Type} (hit : A -> bool) (n : nat)
  (answers : list A) (stopped : bool) :
  attempts hit n answers stopped ->
  stopped = negb (forallb (fun a => negb (hit a)) answers).
Proof.
  unfold attempts. destruct stopped.
  - intros (earlier & last & -> & _ & Hlast & _).
    rewrite forallb_miss_app by assumption. reflexivity.
  - intros [_ ->]. reflexivity.
Qed.

Section Loops.

Context {W : Type}.
Variable h : forall X : Type, E X -> W -> X * W.
Variable environ : string -> option string.

Lemma wait_for_nat_gateway_run (g : string) (n : nat) (w : W) :
  exists polls,
    trace_of h (wait_for_nat_gateway n g) w = flat_map (poll_events g) polls /\
    attempts gateway_seen n polls (result_of h (wait_for_nat_gateway n g) w).
Proof.
  unfold trace_of, result_of. revert w. induction n as [| n IH]; intros w.
  - exists []. simpl. split; [reflexivity | split; reflexivity].
  - simpl. destruct (h _ (poll_call g) w) as [a w1].
    destruct (gateway_seen a) eqn:Ha; simpl.
    + exists [a]. simpl. unfold poll_events. rewrite Ha. simpl.
      split; [reflexivity | apply attempts_hit; assumption].
    + destruct (h _ (time_sleep 15) w1) as [[] w2].
      destruct (IH w2) as [polls [Ht Hr]].
      destruct (run h (wait_for_nat_gateway n g) w2) as [[b w3] t]. simpl in *.
      exists (a :: polls). simpl. unfold poll_events at 1. rewrite Ha. simpl.
      rewrite Ht. split; [reflexivity | apply attempts_miss; assumption].
Qed.

Lemma pull_attempts_run (model_name : string) (n : nat) (w : W) :
  exists rounds,
    trace_of h (pull_attempts environ n model_name) w =
      flat_map (round_events environ model_name) rounds /\
    attempts (fun r => model_listed model_name (snd r)) n rounds
      (stopped_by (result_of h (pull_attempts environ n model_name) w)).
Proof.
  unfold trace_of, result_of. revert w. induction n as [| n IH]; intros w.
  - exists []. simpl. split; [reflexivity | split; reflexivity].
  - simpl. destruct (h _ (pull_call environ model_name) w) as [posted w1].
    destruct (h _ (asyncio_sleep 60) w1) as [[] w2].
    destruct (h _ (tags_call environ) w2) as [resp_tags w3].
    destruct (model_listed model_name resp_tags) eqn:Hl; simpl.
    + exists [(posted, resp_tags)]. split; [reflexivity |].
      apply attempts_hit. exact Hl.
    + destruct (IH w3) as [rounds [Ht Hr]].
      destruct (run h (pull_attempts environ n model_name) w3) as [[o w4] t].
      simpl in *. exists ((posted, resp_tags) :: rounds). simpl. rewrite Ht.
      split; [reflexivity | apply attempts_miss; assumption].
Qed.

End Loops.

(** ** Every run has one of the five shapes *)

Section Shapes.

Context {W : Type}.
Variable h : forall X : Type, E X -> W -> X * W.
Variable environ : string -> option string.

Local Opaque wait_for_nat_gateway pull_attempts.

Lemma create_and_wait_run (w : W) :
  match result_of h (create_and_wait environ) w with
  | inl CreateFailed =>
      exists created,
        trace_of h (create_and_wait environ) w = [Called (create_call environ) created] /\
        truthy (created_id created) = false
  | inl ProvisioningTimeout =>
      exists g polls,
        trace_of h (create_and_wait environ) w =
          Called (create_call environ) (Ok g) :: flat_map (poll_events g) polls /\
        nonempty g = true /\ attempts gateway_seen 40 polls false
  | inl _ => False
  | inr g =>
      exists polls,
        trace_of h (create_and_wait environ) w =
          Called (create_call environ) (Ok g) :: flat_map (poll_events g) polls /\
        nonempty g = true /\ attempts gateway_seen 40 polls true
  end.
Proof.
  unfold trace_of, result_of, create_and_wait, create_nat_gateway. simpl.
  destruct (h _ (create_call environ) w) as [created w1].
  destruct created as [g |]; simpl.
  - destruct (nonempty g) eqn:Hg; simpl.
    + rewrite run_bind.
      destruct (wait_for_nat_gateway_run h g 40 w1) as [polls [Ht Hr]].
      unfold trace_of, result_of in Ht, Hr.
      destruct (run h (wait_for_nat_gateway 40 g) w1) as [[b w2] t].
      simpl in Ht, Hr. subst t.
      destruct b; simpl.
      * exists polls. rewrite app_nil_r. auto.
      * exists g, polls. rewrite app_nil_r. auto.
    + exists (Ok g). simpl. rewrite Hg. auto.
  - exists Raised. auto.
Qed.

Local Opaque create_and_wait.

Theorem pull_model_task_shape (model_name : string) (w : W) :
  Shape environ model_name
    (result_of h (pull_model_task environ model_name) w)
    (trace_of h (pull_model_task environ model_name) w).
Proof.
  unfold pull_model_task.
  destruct (nonempty (os_getenv environ "OLLAMA_HOST" "")) eqn:Hgate.
  - (* egress is provisioned *)
    unfold trace_of, result_of, provision, check_nat_gateway_status,
      get_current_default_route.
    simpl.
    destruct (h _ (check_call environ) w) as [found w1].
    destruct (first_gateway found) as [nat_gateway_id |] eqn:Hfound; simpl.
    2:{ destruct found as [[| g l] |]; try discriminate.
        apply shape_propagated. exact Hgate. }
    destruct (h _ (snapshot_call environ) w1) as [snap w2].
    rewrite !run_bind.
    assert (Hacq :
      match fst (fst (run h (if_truthy nat_gateway_id (fun g => Ret (inr g))
                               (create_and_wait environ)) w2)) with
      | inl CreateFailed =>
          exists created,
            snd (run h (if_truthy nat_gateway_id (fun g => Ret (inr g))
                          (create_and_wait environ)) w2)
              = [Called (create_call environ) created] /\
            nothing_found found = true /\ truthy (created_id created) = false
      | inl ProvisioningTimeout =>
          exists g polls,
            snd (run h (if_truthy nat_gateway_id (fun g => Ret (inr g))
                          (create_and_wait environ)) w2)
              = Called (create_call environ) (Ok g) :: flat_map (poll_events g) polls /\
            nothing_found found = true /\
            nonempty g = true /\ attempts gateway_seen 40 polls false
      | inl _ => False
      | inr g =>
          Acquired environ g found
            (snd (run h (if_truthy nat_gateway_id (fun g => Ret (inr g))
                           (create_and_wait environ)) w2))
      end).
    { destruct found as [[| g0 l] |]; simpl in Hfound; try discriminate;
        injection Hfound as <-; simpl.
      - pose proof (create_and_wait_run w2) as H.
        unfold trace_of, result_of in H.
        destruct (run h (create_and_wait environ) w2) as [[[e | g] w3] t]; simpl in *.
        + destruct e; simpl in *; try contradiction.
          * destruct H as (created & -> & Hc). exists created. auto.
          * destruct H as (g & polls & -> & Hg & Hp). exists g, polls. auto.
        + destruct H as (polls & -> & Hg & Hp).
          apply acquired_created; auto.
      - destruct (nonempty g0) eqn:Hg0; simpl.
        + apply acquired_reused. exact Hg0.
        + pose proof (create_and_wait_run w2) as H.
          unfold trace_of, result_of in H.
          destruct (run h (create_and_wait environ) w2) as [[[e | g] w3] t]; simpl in *.
          * destruct e; simpl in *; try contradiction.
            -- destruct H as (created & -> & Hc). exists created.
               try rewrite Hg0. auto.
            -- destruct H as (g & polls & -> & Hg & Hp). exists g, polls.
               try rewrite Hg0. auto.
          * destruct H as (polls & -> & Hg & Hp).
            apply acquired_created; auto. simpl. try rewrite Hg0. reflexivity. }
    destruct (run h (if_truthy nat_gateway_id (fun g => Ret (inr g))
                       (create_and_wait environ)) w2) as [[[e | g] w3] acquire];
      simpl in Hacq; simpl.
    + destruct e; simpl in *; try contradiction.
      * destruct Hacq as (created & -> & Hnone & Hc).
        rewrite ?app_nil_r. apply shape_create_failed; assumption.
      * destruct Hacq as (g & polls & -> & Hnone & Hg & Hp).
        rewrite ?app_nil_r. apply shape_timeout; assumption.
    + unfold attach_nat_gateway_to_route_table. simpl.
      destruct (h _ (attach_call environ g) w3) as [attached w4].
      destruct (h _ (time_sleep 20) w4) as [[] w5]. simpl.
      rewrite !run_bind.
      destruct (pull_attempts_run h environ model_name 10 w5) as [rounds [Ht Hr]].
      unfold trace_of, result_of in Ht, Hr.
      destruct (run h (pull_attempts environ 10 model_name) w5) as [[o w6] t].
      simpl in Ht, Hr. subst t.
      assert (Hg : nonempty g = true) by (destruct Hacq; assumption).
      unfold cleanup, delete_nat_gateway, restore_default_route.
      rewrite Hg. simpl.
      destruct (h _ (ec2_delete_nat_gateway g) w6) as [deleted w7].
      destruct (snapshot_of snap) as [original |] eqn:Hsnap; simpl.
      * destruct (h _ (restore_call environ original) w7) as [restored w8]. simpl.
        match goal with
        | |- Shape _ _ _ ?t =>
            replace t with
              (Called (check_call environ) found :: Called (snapshot_call environ) snap ::
               acquire ++
               Called (attach_call environ g) attached :: Called (time_sleep 20) tt ::
               flat_map (round_events environ model_name) rounds ++
               teardown_events environ g (snapshot_of snap) deleted restored)
              by (rewrite Hsnap; simpl; rewrite <- ?app_assoc, ?app_nil_r; reflexivity)
        end.
        apply shape_finished; assumption.
      * match goal with
        | |- Shape _ _ _ ?t =>
            replace t with
              (Called (check_call environ) found :: Called (snapshot_call environ) snap ::
               acquire ++
               Called (attach_call environ g) attached :: Called (time_sleep 20) tt ::
               flat_map (round_events environ model_name) rounds ++
               teardown_events environ g (snapshot_of snap) deleted (Ok tt))
              by (rewrite Hsnap; simpl; rewrite <- ?app_assoc, ?app_nil_r; reflexivity)
        end.
        apply shape_finished; assumption.
  - (* no egress provisioning *)
    unfold trace_of, result_of. rewrite run_bind.
    destruct (pull_attempts_run h environ model_name 10 w) as [rounds [Ht Hr]].
    unfold trace_of, result_of in Ht, Hr.
    destruct (run h (pull_attempts environ 10 model_name) w) as [[o w1] t].
    simpl in *. subst t. rewrite app_nil_r.
    apply shape_no_egress; assumption.
Qed.

Local Transparent wait_for_nat_gateway pull_attempts create_and_wait.

End Shapes.

(** ** Reading the trace of a shape *)

Lemma collect_app {A B : Type} (f : A -> option B) (l1 l2 : list A) :
  collect f (l1 ++ l2) = collect f l1 ++ collect f l2.
Proof.
  induction l1 as [| a l1 IH]; simpl; [reflexivity |].
  destruct (f a); simpl; rewrite IH; reflexivity.
Qed.

Lemma collect_flat_map {A B C : Type} (f : A -> option B) (g : C -> list A)
  (l : list C) :
  collect f (flat_map g l) = flat_map (fun c => collect f (g c)) l.
Proof.
  induction l as [| c l IH]; simpl; [reflexivity |].
  rewrite collect_app, IH. reflexivity.
Qed.

Lemma flat_map_nil {A B : Type} (g : A -> list B) (l : list A) :
  (forall a, g a = []) -> flat_map g l = [].
Proof.
  intros H. induction l as [| a l IH]; simpl; [reflexivity |].
  rewrite H, IH. reflexivity.
Qed.

Lemma flat_map_singleton {A : Type} (g : A -> list A) (l : list A) :
  (forall a, g a = [a]) -> flat_map g l = l.
Proof.
  intros H. induction l as [| a l IH]; simpl; [reflexivity |].
  rewrite H, IH. reflexivity.
Qed.

(** An observation that sees none of the polls, or none of the rounds. *)
Lemma collect_polls_nil {B : Type} (f : Event -> option B) (g : string)
  (polls : list (Result (list string))) :
  (forall a, f (Called (poll_call g) a) = None) ->
  f (Called (time_sleep 15) tt) = None ->
  collect f (flat_map (poll_events g) polls) = [].
Proof.
  intros Hpoll Hsleep. rewrite collect_flat_map. apply flat_map_nil.
  intros a. unfold poll_events. simpl. rewrite Hpoll.
  destruct (gateway_seen a); simpl; [| rewrite Hsleep]; reflexivity.
Qed.

Lemma collect_rounds_nil {B : Type} (f : Event -> option B)
  (environ : string -> option string) (model_name : string)
  (rounds : list (Result nat * Result TagsResponse)) :
  (forall x, f (Called (pull_call environ model_name) x) = None) ->
  f (Called (asyncio_sleep 60) tt) = None ->
  (forall x, f (Called (tags_call environ) x) = None) ->
  collect f (flat_map (round_events environ model_name) rounds) = [].
Proof.
  intros Hpost Hsleep Hget. rewrite collect_flat_map. apply flat_map_nil.
  intros r. unfold round_events. simpl. rewrite Hpost, Hsleep, Hget. reflexivity.
Qed.

Lemma poll_answers_polls (g : string) (polls : list (Result (list string))) :
  poll_answers (flat_map (poll_events g) polls) = polls.
Proof.
  unfold poll_answers. rewrite collect_flat_map. apply flat_map_singleton.
  intros a. unfold poll_events. destruct (gateway_seen a); reflexivity.
Qed.

Lemma tags_answers_rounds (environ : string -> option string) (model_name : string)
  (rounds : list (Result nat * Result TagsResponse)) :
  tags_answers (flat_map (round_events environ model_name) rounds) = map snd rounds.
Proof.
  unfold tags_answers. induction rounds as [| r rounds IH]; simpl; [reflexivity |].
  rewrite IH. reflexivity.
Qed.

Lemma pull_requests_rounds (environ : string -> option string) (model_name : string)
  (rounds : list (Result nat * Result TagsResponse)) :
  pull_requests (flat_map (round_events environ model_name) rounds) =
  repeat model_name (length rounds).
Proof.
  unfold pull_requests. induction rounds as [| r rounds IH]; simpl; [reflexivity |].
  rewrite IH. reflexivity.
Qed.

Lemma discovery_rounds (environ : string -> option string) (model_name : string)
  (rounds : list (Result nat * Result TagsResponse)) :
  discovery (flat_map (round_events environ model_name) rounds) = None.
Proof.
  destruct rounds; reflexivity.
Qed.

Lemma reused_nothing_found (environ : string -> option string)
  (found : Result (list string)) (t : list Event) :
  nothing_found found = true ->
  reused_gateway (Called (check_call environ) found :: t) = None.
Proof.
  unfold reused_gateway. simpl.
  destruct found as [[| g l] |]; simpl; try reflexivity.
  destruct (nonempty g); [discriminate | reflexivity].
Qed.

(** The observations of the pieces of a trace.  [observe] pushes an
    observation through a trace built from them. *)
Ltac observe :=
  repeat (rewrite ?collect_app; simpl;
          rewrite ?collect_polls_nil, ?collect_rounds_nil by (intros; reflexivity));
  simpl.

Section Reuse.

Context {W : Type}.
Variable h : forall X : Type, E X -> W -> X * W.
Variable environ : string -> option string.

(** What every run that went on with a gateway it found has in common:
    no create call, and a delete call for that gateway. *)
Lemma reuse_run (model_name : string) (w : W) (g : string) :
  reused_gateway (trace_of h (pull_model_task environ model_name) w) = Some g ->
  create_answers (trace_of h (pull_model_task environ model_name) w) = [] /\
  delete_calls (trace_of h (pull_model_task environ model_name) w) = [g] /\
  exists o, result_of h (pull_model_task environ model_name) w = Finished o.
Proof.
  pose proof (pull_model_task_shape h environ model_name w) as Hs.
  destruct Hs as [rounds o Hgate Hr | Hgate | found snap created Hgate Hnone Hc
                 | found snap g' polls Hgate Hnone Hg Hp
                 | found snap g' acquire attached rounds o deleted restored Hgate Hacq Hr];
    intros Hreuse.
  - unfold reused_gateway in Hreuse. rewrite discovery_rounds in Hreuse. discriminate.
  - discriminate.
  - rewrite reused_nothing_found in Hreuse by assumption. discriminate.
  - rewrite reused_nothing_found in Hreuse by assumption. discriminate.
  - destruct Hacq as [rest Hg | found polls Hnone Hg Hp].
    + unfold reused_gateway in Hreuse. simpl in Hreuse. rewrite Hg in Hreuse.
      injection Hreuse as <-.
      unfold create_answers, delete_calls, teardown_events.
      destruct (snapshot_of snap); observe; eauto.
    + rewrite reused_nothing_found in Hreuse by assumption. discriminate.
Qed.

End Reuse.

(** ** Reuse of an available gateway *)

(** C7: a run whose query for an available NAT gateway in the configured
    subnet finds one issues no create-gateway call. *)
Theorem reuse_issues_no_create {W : Type} (h : forall X : Type, E X -> W -> X * W)
  (environ : string -> option string) (model_name : string) (w : W) (g : string) :
  reused_gateway (trace_of h (pull_model_task environ model_name) w) = Some g ->
  create_answers (trace_of h (pull_model_task environ model_name) w) = [].
Proof.
  intros H. apply (reuse_run h environ model_name w g H).
Qed.

Lemma reuse_issues_no_create_witness :
  reused_gateway (trace_of cloud (pull_model_task deployment "llama3") cloud_with_gateway)
    = Some "nat-old" /\
  create_answers (trace_of cloud (pull_model_task deployment "llama3") cloud_with_gateway)
    = [].
Proof.
  split.
  - vm_compute. reflexivity.
  - apply (reuse_issues_no_create cloud deployment "llama3" cloud_with_gateway "nat-old").
    vm_compute. reflexivity.
Defined.

(** C1, as the code has it: a run that found an available NAT gateway and
    went on with it ends with a delete call for that very gateway, although
    it issued no create call.  The claim says the opposite (no delete on the
    reuse path); line 220 tests [nat_gateway_id], which is set on both
    paths, where the comment of line 218 says "if created". *)
Theorem teardown_deletes_reused_gateway {W : Type}
  (h : forall X : Type, E X -> W -> X * W)
  (environ : string -> option string) (model_name : string) (w : W) (g : string) :
  reused_gateway (trace_of h (pull_model_task environ model_name) w) = Some g ->
  create_answers (trace_of h (pull_model_task environ model_name) w) = [] /\
  delete_calls (trace_of h (pull_model_task environ model_name) w) = [g].
Proof.
  intros H. destruct (reuse_run h environ model_name w g H) as (Hc & Hd & _).
  split; assumption.
Qed.

Lemma teardown_deletes_reused_gateway_witness :
  reused_gateway (trace_of cloud (pull_model_task deployment "llama3") cloud_with_gateway)
    = Some "nat-old" /\
  create_answers (trace_of cloud (pull_model_task deployment "llama3") cloud_with_gateway)
    = [] /\
  delete_calls (trace_of cloud (pull_model_task deployment "llama3") cloud_with_gateway)
    = ["nat-old"].
Proof.
  split.
  - vm_compute. reflexivity.
  - apply (teardown_deletes_reused_gateway cloud deployment "llama3"
             cloud_with_gateway "nat-old").
    vm_compute. reflexivity.
Defined.

(** ** The pull loop *)

Lemma model_listed_lists (model_name : string) (answer : Result TagsResponse) :
  model_listed model_name answer = true <-> inventory_lists model_name answer.
Proof.
  unfold model_listed, inventory_lists. split.
  - destruct answer as [r |]; [| discriminate].
    destruct (Nat.eqb (status_code r) 200) eqn:Hstatus; [| discriminate].
    destruct (json_models r) as [models |] eqn:Hjson; [| discriminate].
    intros Hex. apply existsb_exists in Hex. destruct Hex as (m & Hin & Hm).
    exists r, models. apply Nat.eqb_eq in Hstatus.
    destruct m as [n |]; simpl in Hm; [| discriminate].
    apply String.eqb_eq in Hm. subst n. auto.
  - intros (r & models & -> & Hstatus & Hjson & Hin).
    rewrite Hstatus, Hjson. simpl. apply existsb_exists.
    exists (Some model_name). split; [exact Hin |]. simpl. apply String.eqb_refl.
Qed.

Lemma model_listed_not (model_name : string) (answer : Result TagsResponse) :
  model_listed model_name answer = false -> ~ inventory_lists model_name answer.
Proof.
  intros Hfalse Hlists. apply model_listed_lists in Hlists. congruence.
Qed.

Lemma none_lists (model_name : string) (rounds : list (Result nat * Result TagsResponse)) :
  forallb (fun r => negb (model_listed model_name (snd r))) rounds = true ->
  Forall (fun r => ~ inventory_lists model_name (snd r)) rounds.
Proof.
  intros H. apply Forall_forall. intros r Hin.
  rewrite forallb_forall in H. specialize (H r Hin).
  apply model_listed_not. apply negb_true_iff. exact H.
Qed.

(** How the pull loop ended, read off the inventory answers of its
    rounds. *)
Lemma pull_rounds_outcome (model_name : string)
  (rounds : list (Result nat * Result TagsResponse)) (o : PullOutcome) :
  attempts (fun r => model_listed model_name (snd r)) 10 rounds (stopped_by o) ->
  match o with
  | Success =>
      exists earlier last,
        rounds = earlier ++ [last] /\
        Forall (fun r => ~ inventory_lists model_name (snd r)) earlier /\
        inventory_lists model_name (snd last)
  | NotAvailableAfterRetries =>
      length rounds = 10 /\
      Forall (fun r => ~ inventory_lists model_name (snd r)) rounds
  end.
Proof.
  destruct o; simpl.
  - intros (earlier & last & He & Hm & Hl & _).
    exists earlier, last. split; [exact He |].
    split; [apply none_lists; exact Hm | apply model_listed_lists; exact Hl].
  - intros [Hlen Hall]. split; [exact Hlen | apply none_lists; exact Hall].
Qed.

(** C6: the pull loop runs at most 10 rounds, each a pull trigger, a wait
    of 60 and an inventory query whatever the trigger answered (a status
    code or an exception).  It ends with [Success] in the first round whose
    inventory answer contains the model (status 200 and the name among the
    models of the body), and with [NotAvailableAfterRetries] after exactly
    10 rounds when no answer contains it.  Against a backend whose pull
    triggers all raise and whose first four inventory answers do not
    contain the model, the loop ends with [Success] in the fifth round;
    against one that never contains it, after ten. *)
Theorem pull_loop_rounds :
  (forall (W : Type) (h : forall X : Type, E X -> W -> X * W)
          (environ : string -> option string) (model_name : string) (w : W),
      exists rounds : list (Result nat * Result TagsResponse),
        trace_of h (pull_attempts environ 10 model_name) w =
          flat_map (round_events environ model_name) rounds /\
        length rounds <= 10 /\
        match result_of h (pull_attempts environ 10 model_name) w with
        | Success =>
            exists earlier last,
              rounds = earlier ++ [last] /\
              Forall (fun r => ~ inventory_lists model_name (snd r)) earlier /\
              inventory_lists model_name (snd last)
        | NotAvailableAfterRetries =>
            length rounds = 10 /\
            Forall (fun r => ~ inventory_lists model_name (snd r)) rounds
        end) /\
  result_of scripted (pull_attempts deployment 10 "llama3")
    (answers_without_llama3 ++ [answer_with_llama3; answer_with_llama3]) = Success /\
  trace_of scripted (pull_attempts deployment 10 "llama3")
    (answers_without_llama3 ++ [answer_with_llama3; answer_with_llama3]) =
    flat_map
      (fun answer =>
         [Called (client_post "http://ollama:11434/api/pull" "llama3") Raised;
          Called (asyncio_sleep 60) tt;
          Called (client_get "http://ollama:11434/api/tags") answer])
      (answers_without_llama3 ++ [answer_with_llama3]) /\
  result_of scripted (pull_attempts deployment 10 "llama3") answers_without_llama3
    = NotAvailableAfterRetries /\
  trace_of scripted (pull_attempts deployment 10 "llama3") answers_without_llama3 =
    flat_map
      (fun answer =>
         [Called (client_post "http://ollama:11434/api/pull" "llama3") Raised;
          Called (asyncio_sleep 60) tt;
          Called (client_get "http://ollama:11434/api/tags") answer])
      (answers_without_llama3 ++ repeat Raised 6).
Proof.
  split.
  - intros W h environ model_name w.
    destruct (pull_attempts_run h environ model_name 10 w) as [rounds [Ht Hr]].
    exists rounds. split; [exact Ht |]. split.
    + eapply attempts_length. exact Hr.
    + apply pull_rounds_outcome. exact Hr.
  - repeat split; vm_compute; reflexivity.
Qed.

(** ** Teardown *)

Ltac by_shape h environ model_name w :=
  let Hs := fresh "Hs" in
  pose proof (pull_model_task_shape h environ model_name w) as Hs;
  destruct Hs as [rounds o Hgate Hr | Hgate | found snap created Hgate Hnone Hc
                 | found snap g' polls Hgate Hnone Hg Hp
                 | found snap g' acquire attached rounds o deleted restored Hgate Hacq Hr].

Lemma restore_kwargs_order (original : Target) :
  NatGatewayId (restore_kwargs original) =
    (if truthy (NatGatewayId original) then NatGatewayId original else None) /\
  GatewayId (restore_kwargs original) =
    (if negb (truthy (NatGatewayId original)) && truthy (GatewayId original)
     then GatewayId original else None) /\
  InstanceId (restore_kwargs original) =
    (if negb (truthy (NatGatewayId original)) && negb (truthy (GatewayId original))
        && truthy (InstanceId original)
     then InstanceId original else None) /\
  NetworkInterfaceId (restore_kwargs original) =
    (if negb (truthy (NatGatewayId original)) && negb (truthy (GatewayId original))
        && negb (truthy (InstanceId original)) && truthy (NetworkInterfaceId original)
     then NetworkInterfaceId original else None).
Proof.
  unfold restore_kwargs.
  destruct (truthy (NatGatewayId original)); simpl; [auto |].
  destruct (truthy (GatewayId original)); simpl; [auto |].
  destruct (truthy (InstanceId original)); simpl; [auto |].
  destruct (truthy (NetworkInterfaceId original)); simpl; auto.
Qed.

(** X23: the [replace_route] calls of a run: none, or the attach of line
    192 for the gateway the run found or created, followed, when a snapshot
    was captured and only then, by the restore of line 225.  The restore
    carries the first target of the snapshot that is a non-empty string, in
    the order [NatGatewayId], [GatewayId], [InstanceId],
    [NetworkInterfaceId], and no other target.  With a default route that
    reports an empty [GatewayId], an instance and its network interface,
    the restore names the instance alone. *)
Theorem replace_route_calls_of_run :
  (forall (W : Type) (h : forall X : Type, E X -> W -> X * W)
          (environ : string -> option string) (model_name : string) (w : W),
      replace_route_calls (trace_of h (pull_model_task environ model_name) w) = [] \/
      exists g attached tail,
        (reused_gateway (trace_of h (pull_model_task environ model_name) w) = Some g \/
         create_answers (trace_of h (pull_model_task environ model_name) w) = [Ok g]) /\
        replace_route_calls (trace_of h (pull_model_task environ model_name) w) =
          (environ "ROUTE_TABLE_ID", "0.0.0.0/0",
           {| NatGatewayId := Some g; GatewayId := None;
              InstanceId := None; NetworkInterfaceId := None |}, attached) :: tail /\
        match captured_snapshot (trace_of h (pull_model_task environ model_name) w) with
        | None => tail = []
        | Some original =>
            exists target restored,
              tail = [(environ "ROUTE_TABLE_ID", "0.0.0.0/0", target, restored)] /\
              NatGatewayId target =
                (if truthy (NatGatewayId original)
                 then NatGatewayId original else None) /\
              GatewayId target =
                (if negb (truthy (NatGatewayId original))
                    && truthy (GatewayId original)
                 then GatewayId original else None) /\
              InstanceId target =
                (if negb (truthy (NatGatewayId original))
                    && negb (truthy (GatewayId original))
                    && truthy (InstanceId original)
                 then InstanceId original else None) /\
              NetworkInterfaceId target =
                (if negb (truthy (NatGatewayId original))
                    && negb (truthy (GatewayId original))
                    && negb (truthy (InstanceId original))
                    && truthy (NetworkInterfaceId original)
                 then NetworkInterfaceId original else None)
        end) /\
  replace_route_calls
    (trace_of cloud (pull_model_task deployment "llama3") cloud_via_instance) =
    [(Some "rtb-1", "0.0.0.0/0",
      {| NatGatewayId := Some "nat-old"; GatewayId := None;
         InstanceId := None; NetworkInterfaceId := None |}, true);
     (Some "rtb-1", "0.0.0.0/0",
      {| NatGatewayId := None; GatewayId := None;
         InstanceId := Some "i-1"; NetworkInterfaceId := None |}, true)].
Proof.
  split; [| vm_compute; reflexivity].
  intros W h environ model_name w.
  unfold captured_snapshot, replace_route_calls, create_answers.
  by_shape h environ model_name w; try (left; observe; reflexivity).
  right. exists g', (succeeded attached).
  exists (match snapshot_of snap with
          | Some original =>
              [(environ "ROUTE_TABLE_ID", "0.0.0.0/0", restore_kwargs original,
                succeeded restored)]
          | None => []
          end).
  destruct Hacq as [rest Hg | found polls Hnone Hg Hp].
  - split; [left; unfold reused_gateway; simpl; rewrite Hg; reflexivity |].
    unfold teardown_events. destruct (snapshot_of snap) as [original |] eqn:Hsnap;
      observe; rewrite ?Hsnap.
    + split; [destruct attached, restored; reflexivity |].
      exists (restore_kwargs original), (succeeded restored).
      split; [reflexivity | apply restore_kwargs_order].
    + split; [destruct attached; reflexivity | reflexivity].
  - split; [right; unfold teardown_events; destruct (snapshot_of snap);
            observe; reflexivity |].
    unfold teardown_events. destruct (snapshot_of snap) as [original |] eqn:Hsnap;
      observe; rewrite ?Hsnap.
    + split; [destruct attached, restored; reflexivity |].
      exists (restore_kwargs original), (succeeded restored).
      split; [reflexivity | apply restore_kwargs_order].
    + split; [destruct attached; reflexivity | reflexivity].
Qed.

(** C3, as the code has it: in every run that did not go on with a
    gateway it found (it created its gateway, or provisioned nothing), the
    delete call of teardown is issued exactly when provisioning reached its
    attach call, whether that call went through or raised and however the
    pull ended; the restoring call is issued exactly when, in addition, a
    snapshot of the default route had been captured. *)
Theorem teardown_follows_attach {W : Type} (h : forall X : Type, E X -> W -> X * W)
  (environ : string -> option string) (model_name : string) (w : W) :
  reused_gateway (trace_of h (pull_model_task environ model_name) w) = None ->
  teardown_ran (trace_of h (pull_model_task environ model_name) w) =
    attach_issued (trace_of h (pull_model_task environ model_name) w) /\
  restore_issued (trace_of h (pull_model_task environ model_name) w) =
    attach_issued (trace_of h (pull_model_task environ model_name) w) &&
    match captured_snapshot (trace_of h (pull_model_task environ model_name) w) with
    | Some _ => true
    | None => false
    end.
Proof.
  unfold teardown_ran, attach_issued, restore_issued, captured_snapshot,
    delete_calls, replace_route_calls.
  by_shape h environ model_name w; intros Hcreated.
  - observe. auto.
  - observe. auto.
  - observe. auto.
  - observe. auto.
  - destruct Hacq as [rest Hg | found polls Hnone Hg Hp].
    + unfold reused_gateway in Hcreated. simpl in Hcreated.
      rewrite Hg in Hcreated. discriminate.
    + unfold teardown_events; destruct (snapshot_of snap) eqn:Hsnap;
        observe; rewrite ?Hsnap; auto.
Qed.

Lemma teardown_follows_attach_witness :
  reused_gateway
    (trace_of cloud (pull_model_task deployment "llama3") fresh_cloud) = None /\
  attach_issued
    (trace_of cloud (pull_model_task deployment "llama3") fresh_cloud) = true /\
  teardown_ran
    (trace_of cloud (pull_model_task deployment "llama3") fresh_cloud) =
  attach_issued
    (trace_of cloud (pull_model_task deployment "llama3") fresh_cloud).
Proof.
  split; [vm_compute; reflexivity |]. split; [vm_compute; reflexivity |].
  apply (teardown_follows_attach cloud deployment "llama3" fresh_cloud).
  vm_compute. reflexivity.
Defined.

(** C3 as stated fails: with no gateway in the subnet, the run creates
    one; when the [replace_route] of the attach then raises, no gateway
    gets attached, and the run still pulls and then deletes the gateway it
    created. *)
Lemma teardown_without_attached_gateway :
  create_answers
    (trace_of cloud (pull_model_task deployment "llama3")
       (with_faults fresh_cloud [(OpReplaceRoute, 0)])) = [Ok "nat-new"] /\
  gateway_attached
    (trace_of cloud (pull_model_task deployment "llama3")
       (with_faults fresh_cloud [(OpReplaceRoute, 0)])) = false /\
  teardown_ran
    (trace_of cloud (pull_model_task deployment "llama3")
       (with_faults fresh_cloud [(OpReplaceRoute, 0)])) = true /\
  delete_calls
    (trace_of cloud (pull_model_task deployment "llama3")
       (with_faults fresh_cloud [(OpReplaceRoute, 0)])) = ["nat-new"].
Proof.
  vm_compute. repeat split; reflexivity.
Qed.

(** ** A failed attach *)

(** C4, as the code has it: when the attach call raises, the run goes on
    as if it had not: it triggers the pull of the model and runs the pull
    loop to its end before it tears down.  The claim says the run skips the
    pull; line 192 drops the [False] that
    [attach_nat_gateway_to_route_table] returns, where lines 178 and 188
    leave the function on the failure of the step before. *)
Theorem attach_failure_still_pulls {W : Type} (h : forall X : Type, E X -> W -> X * W)
  (environ : string -> option string) (model_name : string) (w : W) :
  attach_issued (trace_of h (pull_model_task environ model_name) w) = true ->
  gateway_attached (trace_of h (pull_model_task environ model_name) w) = false ->
  hd_error (pull_requests (trace_of h (pull_model_task environ model_name) w))
    = Some model_name /\
  teardown_ran (trace_of h (pull_model_task environ model_name) w) = true /\
  exists o, result_of h (pull_model_task environ model_name) w = Finished o.
Proof.
  unfold teardown_ran, attach_issued, gateway_attached, pull_requests,
    delete_calls, replace_route_calls.
  by_shape h environ model_name w; intros Hissued Hfailed.
  - revert Hissued. observe. discriminate.
  - discriminate.
  - discriminate.
  - revert Hissued. observe. discriminate.
  - assert (Hrounds : exists r rounds', rounds = r :: rounds').
    { destruct rounds as [| r rounds']; [| eauto].
      destruct o; simpl in Hr.
      - destruct Hr as ([| ? ?] & ? & ? & _); discriminate.
      - destruct Hr as [Hlen _]. discriminate. }
    destruct Hrounds as (r & rounds' & ->).
    destruct Hacq as [rest Hg | found polls Hnone Hg Hp];
      unfold teardown_events; destruct (snapshot_of snap);
      observe; eauto.
Qed.

Lemma attach_failure_still_pulls_witness :
  attach_issued
    (trace_of cloud (pull_model_task deployment "llama3")
       (with_faults cloud_with_gateway [(OpReplaceRoute, 0)])) = true /\
  gateway_attached
    (trace_of cloud (pull_model_task deployment "llama3")
       (with_faults cloud_with_gateway [(OpReplaceRoute, 0)])) = false /\
  hd_error
    (pull_requests
       (trace_of cloud (pull_model_task deployment "llama3")
          (with_faults cloud_with_gateway [(OpReplaceRoute, 0)]))) = Some "llama3" /\
  teardown_ran
    (trace_of cloud (pull_model_task deployment "llama3")
       (with_faults cloud_with_gateway [(OpReplaceRoute, 0)])) = true.
Proof.
  split; [vm_compute; reflexivity |]. split; [vm_compute; reflexivity |].
  destruct (attach_failure_still_pulls cloud deployment "llama3"
              (with_faults cloud_with_gateway [(OpReplaceRoute, 0)]))
    as (Hp & Ht & _).
  - vm_compute. reflexivity.
  - vm_compute. reflexivity.
  - split; assumption.
Defined.

(** ** Waiting for a new gateway *)

Lemma created_answer_nonempty (created : Result string) (g : string) :
  truthy (created_id created) = false -> nonempty g = true -> created <> Ok g.
Proof.
  intros Hc Hg ->. simpl in Hc. congruence.
Qed.

(** C5: a run that creates a gateway polls its availability at most 40
    times, with a wait of 15 after every poll that did not see it.  When no
    poll sees it there are exactly 40 polls, the run ends there with a
    provisioning timeout, and its trace has no delete call, no
    [replace_route] call and no pull request. *)
Theorem provisioning_timeout {W : Type} (h : forall X : Type, E X -> W -> X * W)
  (environ : string -> option string) (model_name : string) (w : W) (g : string) :
  create_answers (trace_of h (pull_model_task environ model_name) w) = [Ok g] ->
  nonempty g = true ->
  exists found snap rest,
    trace_of h (pull_model_task environ model_name) w =
      Called (check_call environ) found :: Called (snapshot_call environ) snap ::
      Called (create_call environ) (Ok g) ::
      flat_map (poll_events g)
        (poll_answers (trace_of h (pull_model_task environ model_name) w)) ++ rest /\
    length (poll_answers (trace_of h (pull_model_task environ model_name) w)) <= 40 /\
    if forallb (fun a => negb (gateway_seen a))
         (poll_answers (trace_of h (pull_model_task environ model_name) w))
    then
      length (poll_answers (trace_of h (pull_model_task environ model_name) w)) = 40 /\
      rest = [] /\
      result_of h (pull_model_task environ model_name) w = ProvisioningTimeout /\
      delete_calls (trace_of h (pull_model_task environ model_name) w) = [] /\
      replace_route_calls (trace_of h (pull_model_task environ model_name) w) = [] /\
      pull_requests (trace_of h (pull_model_task environ model_name) w) = []
    else
      exists o, result_of h (pull_model_task environ model_name) w = Finished o.
Proof.
  by_shape h environ model_name w; intros Hcreated Hg0.
  - exfalso. revert Hcreated. unfold create_answers. observe. discriminate.
  - discriminate.
  - exfalso. injection Hcreated as ->.
    eapply created_answer_nonempty; eauto.
  - assert (g' = g) as ->.
    { revert Hcreated. unfold create_answers. observe. congruence. }
    assert (Hpolls :
      poll_answers
        (Called (check_call environ) found :: Called (snapshot_call environ) snap ::
         Called (create_call environ) (Ok g) :: flat_map (poll_events g) polls) = polls).
    { unfold poll_answers. simpl. apply poll_answers_polls. }
    rewrite Hpolls. exists found, snap, []. rewrite app_nil_r.
    split; [reflexivity |]. split; [eapply attempts_length; exact Hp |].
    destruct Hp as [Hlen Hall]. rewrite Hall.
    unfold delete_calls, replace_route_calls, pull_requests. observe.
    repeat split; auto.
  - destruct Hacq as [rest Hg | found polls Hnone Hg Hp].
    + exfalso. revert Hcreated. unfold create_answers, teardown_events.
      destruct (snapshot_of snap); observe; discriminate.
    + assert (g' = g) as ->.
      { revert Hcreated. unfold create_answers, teardown_events.
        destruct (snapshot_of snap); observe; congruence. }
      match goal with
      | |- context [poll_answers ?t] =>
          assert (Hpolls : poll_answers t = polls)
      end.
      { unfold poll_answers, teardown_events. simpl. rewrite !collect_app.
        change (collect poll_answer (flat_map (poll_events g) polls))
          with (poll_answers (flat_map (poll_events g) polls)).
        rewrite poll_answers_polls.
        destruct (snapshot_of snap); observe; rewrite app_nil_r; reflexivity. }
      rewrite Hpolls.
      exists found, snap,
        (Called (attach_call environ g) attached :: Called (time_sleep 20) tt ::
         flat_map (round_events environ model_name) rounds ++
         teardown_events environ g (snapshot_of snap) deleted restored).
      split; [reflexivity |]. split; [eapply attempts_length; exact Hp |].
      destruct (forallb (fun a => negb (gateway_seen a)) polls) eqn:Hall.
      * apply attempts_stopped in Hp. rewrite Hall in Hp. discriminate.
      * eauto.
Qed.

Lemma provisioning_timeout_witness :
  create_answers
    (trace_of cloud (pull_model_task deployment "llama3") (with_startup fresh_cloud 1000))
    = [Ok "nat-new"] /\
  nonempty "nat-new" = true /\
  result_of cloud (pull_model_task deployment "llama3") (with_startup fresh_cloud 1000)
    = ProvisioningTimeout /\
  delete_calls
    (trace_of cloud (pull_model_task deployment "llama3") (with_startup fresh_cloud 1000))
    = [].
Proof.
  split; [vm_compute; reflexivity |]. split; [reflexivity |].
  destruct (provisioning_timeout cloud deployment "llama3"
              (with_startup fresh_cloud 1000) "nat-new")
    as (found & snap & rest & _ & _ & H).
  - vm_compute. reflexivity.
  - reflexivity.
  - assert (Hall :
      forallb (fun a => negb (gateway_seen a))
        (poll_answers
           (trace_of cloud (pull_model_task deployment "llama3")
              (with_startup fresh_cloud 1000))) = true)
      by (vm_compute; reflexivity).
    rewrite Hall in H. destruct H as (_ & _ & Hres & Hdel & _).
    split; assumption.
Defined.

(** ** Restoring the default route in the reference cloud *)

Lemma restore_kwargs_one_target (o : Target) :
  targets_set o = 1 -> targets_set (restore_kwargs o) = 1 -> restore_kwargs o = o.
Proof.
  destruct o as [[n |] [g |] [i |] [ni |]]; unfold restore_kwargs, targets_set;
    simpl; try discriminate; intros _;
    repeat match goal with
           | |- context [nonempty ?s] => destruct (nonempty s); simpl
           end;
    try discriminate; reflexivity.
Qed.

Lemma find_replace_first (target : Target) (rs : list Route) :
  find is_default_route rs <> None ->
  find is_default_route (replace_first "0.0.0.0/0" target rs) =
  Some {| DestinationCidrBlock := Some "0.0.0.0/0"; route_target := target |}.
Proof.
  induction rs as [| r rs IH]; simpl; [congruence |].
  unfold has_destination, is_default_route at 1.
  destruct (DestinationCidrBlock r) as [d |] eqn:Hd.
  - destruct (String.eqb d "0.0.0.0/0") eqn:He.
    + intros _. reflexivity.
    + intros H. simpl. unfold is_default_route at 1. rewrite Hd, He. auto.
  - intros H. simpl. unfold is_default_route at 1. rewrite Hd. auto.
Qed.

Lemma find_replace_first_some (target : Target) (rs : list Route) :
  find is_default_route rs <> None ->
  find is_default_route (replace_first "0.0.0.0/0" target rs) <> None.
Proof.
  intros H. rewrite find_replace_first by assumption. discriminate.
Qed.

(** One call: the routes change as [route_change] says, and a
    [replace_route] that goes through carries exactly one target. *)
Lemma cloud_step {X : Type} (e : E X) (w : Cloud) :
  match replaced_route (Called e (fst (cloud X e w))) with
  | Some c =>
      routes (snd (cloud X e w)) = route_change c (routes w) /\
      (snd c = true -> targets_set (snd (fst c)) = 1)
  | None => routes (snd (cloud X e w)) = routes w
  end.
Proof.
  destruct e; simpl; unfold guarded;
    try (destruct (faulty _ w); simpl; try reflexivity).
  - destruct SubnetId, AllocationId, (fresh_ids w); reflexivity.
  - split; [reflexivity | discriminate].
  - destruct RouteTableId as [rtb |]; simpl.
    + destruct (String.eqb rtb (table_id w)); simpl;
        [| split; [reflexivity | discriminate]].
      destruct (Nat.eqb (targets_set target) 1) eqn:Hone; simpl;
        [| split; [reflexivity | discriminate]].
      destruct (existsb (has_destination Destination) (routes w)); simpl.
      * split; [reflexivity |]. intros _. apply Nat.eqb_eq. exact Hone.
      * split; [reflexivity | discriminate].
    + split; [reflexivity | discriminate].
  - destruct (existsb _ (gateways w)); reflexivity.
  - destruct RouteTableIds as [| [rtb |] [| ? ?]]; try reflexivity.
    destruct (String.eqb rtb (table_id w)); reflexivity.
  - reflexivity.
  - reflexivity.
  - destruct (existsb _ _); reflexivity.
  - destruct (existsb _ _); reflexivity.
Qed.

Lemma cloud_trace (t : list Event) (w w' : Cloud) :
  consistent cloud w t w' ->
  routes w' = routes_after t (routes w) /\
  Forall (fun c => snd c = true -> targets_set (snd (fst c)) = 1)
    (replace_route_calls t).
Proof.
  unfold routes_after, replace_route_calls.
  revert w. induction t as [| [X e x] t IH]; intros w H; simpl in H.
  - subst w'. simpl. split; [reflexivity | constructor].
  - destruct H as [Hx H]. specialize (IH _ H).
    pose proof (cloud_step e w) as Hstep. rewrite Hx in Hstep.
    cbn [collect].
    destruct (replaced_route (Called e x)) as [c |].
    + destruct Hstep as [Hroutes Hone]. rewrite Hroutes in IH.
      destruct IH as [IH1 IH2]. split; [exact IH1 | constructor; assumption].
    + rewrite Hstep in IH. exact IH.
Qed.

(** The snapshot the code takes in the reference cloud is the default
    route of the cloud. *)
Lemma cloud_snapshot (rtb : option string) (w : Cloud) (original : Target) :
  snapshot_of (fst (cloud _ (ec2_describe_route_tables [rtb]) w)) = Some original ->
  default_route w = Some original.
Proof.
  simpl. unfold guarded. destruct (faulty _ w); simpl; [discriminate |].
  destruct rtb as [rtb |]; simpl; [| discriminate].
  destruct (String.eqb rtb (table_id w)); simpl; [| discriminate].
  auto.
Qed.

(** C2, as the code has it: in the reference cloud, for every run in which
    provisioning succeeds, a snapshot with exactly one target was captured
    before the route was changed, and the restoring call of teardown goes
    through, that call carries exactly the captured target, and the default
    route of the route table after the run is the one from before the
    run. *)
Theorem restore_round_trip (environ : string -> option string) (model_name : string)
  (w : Cloud) (original : Target) :
  gateway_attached (trace_of cloud (pull_model_task environ model_name) w) = true ->
  captured_snapshot (trace_of cloud (pull_model_task environ model_name) w)
    = Some original ->
  targets_set original = 1 ->
  route_restored (trace_of cloud (pull_model_task environ model_name) w) = true ->
  restore_target (trace_of cloud (pull_model_task environ model_name) w)
    = Some original /\
  default_route w = Some original /\
  default_route (world_of cloud (pull_model_task environ model_name) w)
    = Some original.
Proof.
  generalize (run_consistent cloud (pull_model_task environ model_name) w).
  generalize (world_of cloud (pull_model_task environ model_name) w) as w'.
  intros w'.
  unfold gateway_attached, captured_snapshot, route_restored, restore_target.
  by_shape cloud environ model_name w; intros Hcons Hattached Hcaptured Hone Hrestored.
  - revert Hattached. unfold replace_route_calls. observe. discriminate.
  - discriminate.
  - discriminate.
  - revert Hattached. unfold replace_route_calls. observe. discriminate.
  - assert (Hcalls :
      collect route_table_answer acquire = [] /\ replace_route_calls acquire = []).
    { unfold replace_route_calls.
      destruct Hacq as [rest Hg | found polls Hnone Hg Hp]; observe; auto. }
    destruct Hcalls as [Hacq1 Hacq2].
    assert (Hsnap : snapshot_of snap = Some original).
    { revert Hcaptured. simpl. intros H. exact H. }
    assert (Hdefault : default_route w = Some original).
    { simpl in Hcons. destruct Hcons as (_ & Hs & _).
      rewrite <- Hs in Hsnap. apply cloud_snapshot in Hsnap.
      pose proof (cloud_step (check_call environ) w) as Hstep. simpl in Hstep.
      unfold default_route in *. rewrite Hstep in Hsnap. exact Hsnap. }
    destruct (cloud_trace _ _ _ Hcons) as [Hroutes Haccepted].
    assert (Hreplaced :
      replace_route_calls
        (Called (check_call environ) found :: Called (snapshot_call environ) snap ::
         acquire ++
         Called (attach_call environ g') attached :: Called (time_sleep 20) tt ::
         flat_map (round_events environ model_name) rounds ++
         teardown_events environ g' (snapshot_of snap) deleted restored) =
      [(ROUTE_TABLE_ID environ, "0.0.0.0/0",
        {| NatGatewayId := Some g'; GatewayId := None;
           InstanceId := None; NetworkInterfaceId := None |}, succeeded attached);
       (ROUTE_TABLE_ID environ, "0.0.0.0/0", restore_kwargs original,
        succeeded restored)]).
    { rewrite Hsnap. unfold replace_route_calls in *. simpl.
      rewrite collect_app, Hacq2. observe.
      destruct attached, restored; reflexivity. }
    unfold routes_after in Hroutes. rewrite Hreplaced in *.
    simpl in Hattached, Hrestored.
    rewrite Hattached, Hrestored in *. simpl in Hroutes.
    assert (Hkwargs : restore_kwargs original = original).
    { apply restore_kwargs_one_target; [exact Hone |].
      inversion Haccepted as [| c1 l1 _ Hrest]; subst.
      inversion Hrest as [| c2 l2 Hc2 _]; subst.
      apply Hc2. reflexivity. }
    rewrite Hkwargs in *.
    split; [reflexivity |]. split; [exact Hdefault |].
    unfold default_route in *. rewrite Hroutes.
    rewrite find_replace_first; [reflexivity |].
    apply find_replace_first_some.
    destruct (find is_default_route (routes w)); [discriminate | discriminate].
Qed.

Lemma restore_round_trip_witness :
  gateway_attached (trace_of cloud (pull_model_task deployment "llama3") fresh_cloud)
    = true /\
  captured_snapshot (trace_of cloud (pull_model_task deployment "llama3") fresh_cloud)
    = Some via_internet_gateway /\
  targets_set via_internet_gateway = 1 /\
  route_restored (trace_of cloud (pull_model_task deployment "llama3") fresh_cloud)
    = true /\
  default_route (world_of cloud (pull_model_task deployment "llama3") fresh_cloud)
    = Some via_internet_gateway.
Proof.
  split; [vm_compute; reflexivity |]. split; [vm_compute; reflexivity |].
  split; [reflexivity |]. split; [vm_compute; reflexivity |].
  apply (restore_round_trip deployment "llama3" fresh_cloud via_internet_gateway).
  - vm_compute. reflexivity.
  - vm_compute. reflexivity.
  - reflexivity.
  - vm_compute. reflexivity.
Defined.

(** C2 as stated fails.  When [describe_route_tables] raises, provisioning
    still succeeds, no snapshot exists and teardown restores nothing: the
    default route is left on the deleted gateway.  When the restoring
    [replace_route] raises, the failure is logged and the default route is
    left on the deleted gateway as well. *)
Lemma route_left_on_deleted_gateway :
  (gateway_attached
     (trace_of cloud (pull_model_task deployment "llama3")
        (with_faults cloud_with_gateway [(OpDescribeRouteTables, 0)])) = true /\
   default_route (with_faults cloud_with_gateway [(OpDescribeRouteTables, 0)])
     = Some via_internet_gateway /\
   restore_issued
     (trace_of cloud (pull_model_task deployment "llama3")
        (with_faults cloud_with_gateway [(OpDescribeRouteTables, 0)])) = false /\
   default_route
     (world_of cloud (pull_model_task deployment "llama3")
        (with_faults cloud_with_gateway [(OpDescribeRouteTables, 0)]))
     = Some {| NatGatewayId := Some "nat-old"; GatewayId := None;
               InstanceId := None; NetworkInterfaceId := None |}) /\
  (gateway_attached
     (trace_of cloud (pull_model_task deployment "llama3")
        (with_faults cloud_with_gateway [(OpReplaceRoute, 1)])) = true /\
   captured_snapshot
     (trace_of cloud (pull_model_task deployment "llama3")
        (with_faults cloud_with_gateway [(OpReplaceRoute, 1)]))
     = Some via_internet_gateway /\
   route_restored
     (trace_of cloud (pull_model_task deployment "llama3")
        (with_faults cloud_with_gateway [(OpReplaceRoute, 1)])) = false /\
   default_route
     (world_of cloud (pull_model_task deployment "llama3")
        (with_faults cloud_with_gateway [(OpReplaceRoute, 1)]))
     = Some {| NatGatewayId := Some "nat-old"; GatewayId := None;
               InstanceId := None; NetworkInterfaceId := None |}).
Proof.
  vm_compute. repeat split; reflexivity.
Qed.

(** ** Scaling to zero *)

Section Fleet.

Context {W : Type}.
Variable h : forall X : Type, E X -> W -> X * W.

Lemma stop_each_run (cluster_name : string) (tasks : list string) (w : W) :
  stop_calls (trace_of h (stop_each cluster_name tasks) w) = tasks /\
  collect list_answer (trace_of h (stop_each cluster_name tasks) w) = [].
Proof.
  unfold trace_of, stop_calls. revert w.
  induction tasks as [| task rest IH]; intros w; simpl.
  - split; reflexivity.
  - destruct (h _ (ecs_stop_task cluster_name task) w) as [stopped w1].
    specialize (IH w1).
    destruct (run h (stop_each cluster_name rest) w1) as [[[] w2] t].
    simpl in *. destruct IH as [-> ->]. split; reflexivity.
Qed.

Lemma stop_ecs_tasks_run (cluster_name service_name : string) (w : W) :
  stop_calls (trace_of h (stop_ecs_tasks cluster_name service_name) w) =
  listed_tasks (trace_of h (stop_ecs_tasks cluster_name service_name) w).
Proof.
  unfold trace_of, stop_ecs_tasks, list_ecs_tasks, listed_tasks, stop_calls. simpl.
  destruct (h _ (ecs_list_tasks cluster_name service_name) w) as [listed w1].
  destruct listed as [[| task rest] |]; simpl; try reflexivity.
  destruct (h _ (ecs_stop_task cluster_name task) w1) as [stopped w2].
  destruct (stop_each_run cluster_name rest w2) as [Hstop Hlist].
  unfold trace_of, stop_calls in Hstop, Hlist.
  destruct (run h (stop_each cluster_name rest) w2) as [[[] w3] t].
  simpl in *. rewrite Hstop. reflexivity.
Qed.

Local Opaque stop_ecs_tasks.

Lemma shutdown_calls_run (cluster_name service_name autoscaling_group_name : string)
  (w : W) :
  match result_of h (shutdown_calls cluster_name service_name autoscaling_group_name) w with
  | Returned _ =>
      stop_calls
        (trace_of h (shutdown_calls cluster_name service_name autoscaling_group_name) w) =
      listed_tasks
        (trace_of h (shutdown_calls cluster_name service_name autoscaling_group_name) w)
  | HTTPException _ =>
      stop_calls
        (trace_of h (shutdown_calls cluster_name service_name autoscaling_group_name) w) = []
  end.
Proof.
  unfold trace_of, result_of, shutdown_calls. simpl.
  destruct (h _ (asg_update_auto_scaling_group autoscaling_group_name 0 0) w)
    as [[[] |] w1]; simpl; [| reflexivity].
  destruct (h _ (ecs_update_service cluster_name service_name 0 true) w1)
    as [[[] |] w2]; simpl; [| reflexivity].
  rewrite run_bind.
  pose proof (stop_ecs_tasks_run cluster_name service_name w2) as H.
  unfold trace_of in H.
  destruct (run h (stop_ecs_tasks cluster_name service_name) w2) as [[[] w3] t].
  simpl in *. rewrite app_nil_r. exact H.
Qed.

Local Transparent stop_ecs_tasks.

End Fleet.

(** C8: [stop_ecs_tasks] issues a stop call for every task of the
    listing, in listing order, whatever the stop calls answer; scaling to
    zero does so whenever it returns normally.  With three listed tasks of
    which the first cannot be stopped, all three get their stop call. *)
Theorem stop_calls_reach_every_task :
  (forall (W : Type) (h : forall X : Type, E X -> W -> X * W)
          (cluster_name service_name : string) (w : W),
      stop_calls (trace_of h (stop_ecs_tasks cluster_name service_name) w) =
      listed_tasks (trace_of h (stop_ecs_tasks cluster_name service_name) w)) /\
  (forall (W : Type) (h : forall X : Type, E X -> W -> X * W)
          (cluster_name service_name autoscaling_group_name : string) (w : W),
      match result_of h
              (shutdown_calls cluster_name service_name autoscaling_group_name) w with
      | Returned _ =>
          stop_calls
            (trace_of h
               (shutdown_calls cluster_name service_name autoscaling_group_name) w) =
          listed_tasks
            (trace_of h
               (shutdown_calls cluster_name service_name autoscaling_group_name) w)
      | HTTPException _ =>
          stop_calls
            (trace_of h
               (shutdown_calls cluster_name service_name autoscaling_group_name) w) = []
      end) /\
  trace_of cloud (stop_ecs_tasks "cluster" "ollama") three_tasks =
    [Called (ecs_list_tasks "cluster" "ollama") (Ok ["task-1"; "task-2"; "task-3"]);
     Called (ecs_stop_task "cluster" "task-1") Raised;
     Called (ecs_stop_task "cluster" "task-2") (Ok tt);
     Called (ecs_stop_task "cluster" "task-3") (Ok tt)] /\
  result_of cloud (shutdown_ecs_service deployment) three_tasks = Returned "success" /\
  stop_calls (trace_of cloud (shutdown_ecs_service deployment) three_tasks) =
    ["task-1"; "task-2"; "task-3"].
Proof.
  split; [intros; apply stop_ecs_tasks_run |].
  split; [intros; apply shutdown_calls_run |].
  split; [vm_compute; reflexivity |].
  split; vm_compute; reflexivity.
Qed.

(** ** Readiness *)

Section Readiness.

Context {W : Type}.
Variable h : forall X : Type, E X -> W -> X * W.

(** What [get_ecs_task_status] makes of the answer (lines 445-448). *)
Lemma status_of_service_run (cluster_name service_name : string) (w : W) :
  match listed_tasks (trace_of h (status_of_service cluster_name service_name) w) with
  | [] =>
      result_of h (status_of_service cluster_name service_name) w =
        Returned {| ready := false; status := Some "NO_TASKS"; task_arn := None |} /\
      describe_tasks_calls (trace_of h (status_of_service cluster_name service_name) w) = []
  | first :: rest =>
      exists answer,
        describe_tasks_calls (trace_of h (status_of_service cluster_name service_name) w)
          = [([last (first :: rest) first], answer)] /\
        result_of h (status_of_service cluster_name service_name) w =
          Returned {| ready := is_running (last_status answer);
                      status := last_status answer;
                      task_arn := Some (last (first :: rest) first) |}
  end.
Proof.
  unfold trace_of, result_of, status_of_service, list_ecs_tasks, get_ecs_task_status,
    listed_tasks, describe_tasks_calls.
  simpl.
  destruct (h _ (ecs_list_tasks cluster_name service_name) w) as [listed w1].
  destruct listed as [[| first rest] |]; try (simpl; split; reflexivity).
  cbn -[last].
  destruct (h _ (ecs_describe_tasks cluster_name [last (first :: rest) first]) w1)
    as [answer w2].
  cbn -[last]. exists answer. split; reflexivity.
Qed.

Lemma selfhost_status_configured (environ : string -> option string) :
  truthy (environ "CLUSTER_NAME") = true ->
  truthy (environ "SERVICE_NAME") = true ->
  exists cluster_name service_name,
    selfhost_status environ = status_of_service cluster_name service_name.
Proof.
  unfold selfhost_status, if_truthy, truthy.
  destruct (environ "CLUSTER_NAME") as [c |]; [| discriminate].
  destruct (environ "SERVICE_NAME") as [s |]; [| discriminate].
  intros -> ->. eauto.
Qed.

End Readiness.

(** C9: with the cluster and service names configured, the readiness
    operation first lists the tasks of the service.  When the listing is
    empty (or the listing call raised) it makes no further call and answers
    not ready with status [NO_TASKS], not an error.  Otherwise it asks for
    the status of the last task of the listing and of no other, and answers
    ready exactly when that status is [RUNNING], together with the status
    and the task. *)
Theorem readiness_of_last_task {W : Type} (h : forall X : Type, E X -> W -> X * W)
  (environ : string -> option string) (w : W) (cluster_name service_name : string) :
  environ "CLUSTER_NAME" = Some cluster_name ->
  nonempty cluster_name = true ->
  environ "SERVICE_NAME" = Some service_name ->
  nonempty service_name = true ->
  exists listed rest,
    trace_of h (selfhost_status environ) w =
      Called (ecs_list_tasks cluster_name service_name) listed :: rest /\
    match listed with
    | Ok (first :: others) =>
        exists answer,
          rest =
            [Called (ecs_describe_tasks cluster_name [last (first :: others) first])
               answer] /\
          match answer with
          | Ok (lastStatus :: _) =>
              result_of h (selfhost_status environ) w =
                Returned {| ready := String.eqb lastStatus "RUNNING";
                            status := Some lastStatus;
                            task_arn := Some (last (first :: others) first) |}
          | _ =>
              result_of h (selfhost_status environ) w =
                Returned {| ready := false; status := None;
                            task_arn := Some (last (first :: others) first) |}
          end
    | _ =>
        rest = [] /\
        result_of h (selfhost_status environ) w =
          Returned {| ready := false; status := Some "NO_TASKS"; task_arn := None |}
    end.
Proof.
  intros Hc Hcn Hs Hsn.
  unfold selfhost_status, if_truthy. rewrite Hc, Hcn, Hs, Hsn.
  unfold trace_of, result_of, status_of_service, list_ecs_tasks, get_ecs_task_status.
  cbn [bind call run].
  destruct (h _ (ecs_list_tasks cluster_name service_name) w) as [listed w1].
  destruct listed as [[| first others] |]; cbn [bind call run fst snd].
  - exists (Ok []), []. auto.
  - destruct (h _ (ecs_describe_tasks cluster_name [last (first :: others) first]) w1)
      as [answer w2].
    cbn [bind call run fst snd].
    exists (Ok (first :: others)),
      [Called (ecs_describe_tasks cluster_name [last (first :: others) first]) answer].
    split; [reflexivity |]. exists answer. split; [reflexivity |].
    destruct answer as [[| lastStatus statuses] |]; reflexivity.
  - exists Raised, []. auto.
Qed.

Lemma readiness_of_last_task_witness :
  deployment "CLUSTER_NAME" = Some "cluster" /\
  nonempty "cluster" = true /\
  deployment "SERVICE_NAME" = Some "ollama" /\
  nonempty "ollama" = true /\
  result_of cloud (selfhost_status deployment) running_tasks =
    Returned {| ready := true; status := Some "RUNNING"; task_arn := Some "task-2" |}.
Proof.
  split; [reflexivity |]. split; [reflexivity |].
  split; [reflexivity |]. split; [reflexivity |].
  destruct (readiness_of_last_task cloud deployment running_tasks "cluster" "ollama"
              eq_refl eq_refl eq_refl eq_refl)
    as (listed & rest & Htrace & Hrest).
  assert (Hlisted : listed = Ok ["task-1"; "task-2"]).
  { apply (f_equal (collect list_answer)) in Htrace.
    vm_compute in Htrace. injection Htrace as <-. reflexivity. }
  subst listed. destruct Hrest as (answer & Hrest & Hresult). subst rest.
  assert (Hanswer : answer = Ok ["RUNNING"]).
  { apply (f_equal describe_tasks_calls) in Htrace.
    vm_compute in Htrace. injection Htrace as <-. reflexivity. }
  subst answer. exact Hresult.
Defined.

(** C10: with the names configured, a listing that is not empty and a
    status query for its last task that raises, the readiness operation
    raises nothing: it answers not ready, with no status, and with the
    task it asked about. *)
Theorem status_lookup_failure {W : Type} (h : forall X : Type, E X -> W -> X * W)
  (environ : string -> option string) (w : W) (first : string) (rest : list string) :
  truthy (environ "CLUSTER_NAME") = true ->
  truthy (environ "SERVICE_NAME") = true ->
  listed_tasks (trace_of h (selfhost_status environ) w) = first :: rest ->
  map snd (describe_tasks_calls (trace_of h (selfhost_status environ) w)) = [Raised] ->
  result_of h (selfhost_status environ) w =
    Returned {| ready := false; status := None;
                task_arn := Some (last (first :: rest) first) |}.
Proof.
  intros Hc Hs Hlisted Hraised.
  destruct (selfhost_status_configured environ Hc Hs) as (c & s & Heq).
  rewrite Heq in *.
  pose proof (status_of_service_run h c s w) as H.
  rewrite Hlisted in H. destruct H as (answer & Hcalls & Hres).
  rewrite Hcalls in Hraised. simpl in Hraised.
  injection Hraised as ->. exact Hres.
Qed.

Lemma status_lookup_failure_witness :
  truthy (deployment "CLUSTER_NAME") = true /\
  truthy (deployment "SERVICE_NAME") = true /\
  listed_tasks
    (trace_of cloud (selfhost_status deployment)
       (with_faults three_tasks [(OpDescribeTasks, 0)]))
    = ["task-1"; "task-2"; "task-3"] /\
  map snd
    (describe_tasks_calls
       (trace_of cloud (selfhost_status deployment)
          (with_faults three_tasks [(OpDescribeTasks, 0)]))) = [Raised] /\
  result_of cloud (selfhost_status deployment)
    (with_faults three_tasks [(OpDescribeTasks, 0)]) =
    Returned {| ready := false; status := None; task_arn := Some "task-3" |}.
Proof.
  split; [reflexivity |]. split; [reflexivity |].
  split; [vm_compute; reflexivity |]. split; [vm_compute; reflexivity |].
  apply (status_lookup_failure cloud deployment
           (with_faults three_tasks [(OpDescribeTasks, 0)])
           "task-1" ["task-2"; "task-3"]).
  - reflexivity.
  - reflexivity.
  - vm_compute. reflexivity.
  - vm_compute. reflexivity.
Defined.

(** ** The scenarios of section 8, in the reference cloud *)

(** No gateway in the subnet: the run creates one, sees it at the fourth
    poll (45 seconds of start-up, 15 between polls), attaches it, pulls,
    deletes it and puts the internet gateway back. *)
Example scenario_create :
  create_answers (trace_of cloud (pull_model_task deployment "llama3") fresh_cloud)
    = [Ok "nat-new"] /\
  length (poll_answers (trace_of cloud (pull_model_task deployment "llama3") fresh_cloud))
    = 4 /\
  result_of cloud (pull_model_task deployment "llama3") fresh_cloud = Finished Success /\
  delete_calls (trace_of cloud (pull_model_task deployment "llama3") fresh_cloud)
    = ["nat-new"] /\
  default_route (world_of cloud (pull_model_task deployment "llama3") fresh_cloud)
    = Some via_internet_gateway.
Proof.
  vm_compute. repeat split; reflexivity.
Qed.

(** A download of 150 seconds: the third round finds the model. *)
Example scenario_round_three :
  result_of cloud (pull_attempts deployment 10 "llama3") fresh_cloud = Success /\
  pull_requests (trace_of cloud (pull_attempts deployment 10 "llama3") fresh_cloud)
    = ["llama3"; "llama3"; "llama3"] /\
  map (model_listed "llama3")
    (tags_answers (trace_of cloud (pull_attempts deployment 10 "llama3") fresh_cloud))
    = [false; false; true].
Proof.
  vm_compute. repeat split; reflexivity.
Qed.

(** A download that takes longer than ten rounds: ten rounds, then
    [NotAvailableAfterRetries]. *)
Example scenario_exhausted :
  result_of cloud (pull_attempts deployment 10 "llama3")
    (with_download_time fresh_cloud 3600) = NotAvailableAfterRetries /\
  length
    (tags_answers
       (trace_of cloud (pull_attempts deployment 10 "llama3")
          (with_download_time fresh_cloud 3600))) = 10.
Proof.
  vm_compute. repeat split; reflexivity.
Qed.

(** Every pull trigger raises: each round still asks for the inventory. *)
Example scenario_trigger_fails :
  length
    (tags_answers
       (trace_of cloud (pull_attempts deployment 10 "llama3")
          (with_faults fresh_cloud
             [(OpPost, 0); (OpPost, 1); (OpPost, 2); (OpPost, 3); (OpPost, 4);
              (OpPost, 5); (OpPost, 6); (OpPost, 7); (OpPost, 8); (OpPost, 9)])))
    = 10.
Proof.
  vm_compute. reflexivity.
Qed.

(** * More properties of the code *)

(** ** The pull lifecycle *)

Lemma nonempty_false (s : string) : nonempty s = false -> s = "".
Proof.
  unfold nonempty. intros H. apply String.eqb_eq.
  destruct (String.eqb s ""); [reflexivity | discriminate].
Qed.

Lemma attempts_some {A : Type} (hit : A -> bool) (n : nat) (answers : list A)
  (stopped : bool) :
  attempts hit (S n) answers stopped -> exists a rest, answers = a :: rest.
Proof.
  destruct answers as [| a rest]; [| eauto].
  unfold attempts. destruct stopped.
  - intros ([| ? ?] & ? & ? & _); discriminate.
  - intros [Hlen _]. discriminate.
Qed.

Lemma existsb_flat_map_false {A B : Type} (f : B -> bool) (g : A -> list B)
  (l : list A) :
  (forall a, existsb f (g a) = false) -> existsb f (flat_map g l) = false.
Proof.
  intros H. induction l as [| a l IH]; simpl; [reflexivity |].
  rewrite existsb_app, H, IH. reflexivity.
Qed.

Lemma discovery_check (environ : string -> option string)
  (found : Result (list string)) (t : list Event) :
  discovery (Called (check_call environ) found :: t) = Some found.
Proof. reflexivity. Qed.

(** X1: without [OLLAMA_HOST] in the environment (unset or empty) a run
    makes no call to the cloud API at all and goes straight to the pull
    loop, which it runs to its end; the requests go to the default host
    when the variable is unset and to a URL without host when it is set
    but empty. *)
Theorem no_egress_without_host {W : Type} (h : forall X : Type, E X -> W -> X * W)
  (environ : string -> option string) (model_name : string) (w : W) :
  nonempty (os_getenv environ "OLLAMA_HOST" "") = false ->
  existsb cloud_call (trace_of h (pull_model_task environ model_name) w) = false /\
  (exists o, result_of h (pull_model_task environ model_name) w = Finished o) /\
  exists posted rest,
    trace_of h (pull_model_task environ model_name) w =
    Called (client_post
              match environ "OLLAMA_HOST" with
              | None => "http://localhost:11434/api/pull"
              | Some _ => "/api/pull"
              end model_name) posted :: rest.
Proof.
  by_shape h environ model_name w; intros Hoff; try congruence.
  split; [| split; [eauto |]].
  - apply existsb_flat_map_false. intros r. reflexivity.
  - destruct (attempts_some _ _ _ _ Hr) as (r & rounds' & ->).
    exists (fst r), (Called (asyncio_sleep 60) tt :: Called (tags_call environ) (snd r)
                     :: flat_map (round_events environ model_name) rounds').
    simpl. unfold pull_call, OLLAMA_HOST, os_getenv in *.
    destruct (environ "OLLAMA_HOST") as [v |]; [| reflexivity].
    apply nonempty_false in Hoff. subst v. reflexivity.
Qed.

Lemma no_egress_without_host_witness :
  nonempty (os_getenv no_host "OLLAMA_HOST" "") = false /\
  existsb cloud_call (trace_of cloud (pull_model_task no_host "llama3") fresh_cloud)
    = false.
Proof.
  split; [reflexivity |].
  apply (no_egress_without_host cloud no_host "llama3" fresh_cloud). reflexivity.
Defined.

(** X2: when the query for an available gateway raises, the exception
    leaves [pull_model_task]: that query is the only call of the run, so
    there is no snapshot, no pull and no teardown. *)
Theorem discovery_failure_propagates {W : Type}
  (h : forall X : Type, E X -> W -> X * W)
  (environ : string -> option string) (model_name : string) (w : W) :
  discovery (trace_of h (pull_model_task environ model_name) w) = Some Raised ->
  result_of h (pull_model_task environ model_name) w = Propagated /\
  trace_of h (pull_model_task environ model_name) w =
    [Called (check_call environ) Raised].
Proof.
  by_shape h environ model_name w; intros Hd.
  - rewrite discovery_rounds in Hd. discriminate.
  - split; reflexivity.
  - rewrite discovery_check in Hd. injection Hd as ->. discriminate.
  - rewrite discovery_check in Hd. injection Hd as ->. discriminate.
  - rewrite discovery_check in Hd. injection Hd as ->.
    inversion Hacq; subst; discriminate.
Qed.

Lemma discovery_failure_propagates_witness :
  discovery
    (trace_of cloud (pull_model_task deployment "llama3")
       (with_faults fresh_cloud [(OpDescribeNatGateways, 0)])) = Some Raised /\
  result_of cloud (pull_model_task deployment "llama3")
    (with_faults fresh_cloud [(OpDescribeNatGateways, 0)]) = Propagated.
Proof.
  split; [vm_compute; reflexivity |].
  apply (discovery_failure_propagates cloud deployment "llama3"
           (with_faults fresh_cloud [(OpDescribeNatGateways, 0)])).
  vm_compute. reflexivity.
Defined.

(** X3: when the create call raises, or answers an empty identifier, the
    run ends right there: after the query, the snapshot and the create call
    it polls nothing, attaches nothing, pulls nothing and deletes nothing. *)
Theorem create_failure_aborts {W : Type} (h : forall X : Type, E X -> W -> X * W)
  (environ : string -> option string) (model_name : string) (w : W)
  (answer : Result string) :
  create_answers (trace_of h (pull_model_task environ model_name) w) = [answer] ->
  truthy (created_id answer) = false ->
  result_of h (pull_model_task environ model_name) w = CreateFailed /\
  exists found snap,
    trace_of h (pull_model_task environ model_name) w =
      [Called (check_call environ) found; Called (snapshot_call environ) snap;
       Called (create_call environ) answer].
Proof.
  by_shape h environ model_name w; intros Hcreated Hfalsy.
  - exfalso. revert Hcreated. unfold create_answers. observe. discriminate.
  - discriminate.
  - injection Hcreated as <-. eauto.
  - exfalso. revert Hcreated. unfold create_answers. observe.
    intros H. injection H as <-. simpl in Hfalsy. congruence.
  - exfalso. revert Hcreated. unfold create_answers, teardown_events.
    destruct Hacq as [rest Hg | found polls Hnone Hg Hp];
      destruct (snapshot_of snap); observe; try discriminate;
      intros H; injection H as <-; simpl in Hfalsy; congruence.
Qed.

Lemma create_failure_aborts_witness :
  create_answers
    (trace_of cloud (pull_model_task deployment "llama3")
       (with_faults fresh_cloud [(OpCreateNatGateway, 0)])) = [Raised] /\
  truthy (created_id (@Raised string)) = false /\
  result_of cloud (pull_model_task deployment "llama3")
    (with_faults fresh_cloud [(OpCreateNatGateway, 0)]) = CreateFailed.
Proof.
  split; [vm_compute; reflexivity |]. split; [reflexivity |].
  apply (create_failure_aborts cloud deployment "llama3"
           (with_faults fresh_cloud [(OpCreateNatGateway, 0)]) Raised).
  - vm_compute. reflexivity.
  - reflexivity.
Defined.

(** X4: a run that changes anything in the cloud account has first asked
    for an available gateway and then taken the snapshot of the route
    table, in that order and as its first two calls; it takes no second
    snapshot. *)
Theorem snapshot_precedes_mutation {W : Type} (h : forall X : Type, E X -> W -> X * W)
  (environ : string -> option string) (model_name : string) (w : W) :
  existsb mutates (trace_of h (pull_model_task environ model_name) w) = true ->
  exists found snap rest,
    trace_of h (pull_model_task environ model_name) w =
      Called (check_call environ) found :: Called (snapshot_call environ) snap :: rest /\
    existsb mutates
      [Called (check_call environ) found; Called (snapshot_call environ) snap] = false /\
    collect route_table_answer rest = [].
Proof.
  by_shape h environ model_name w; intros Hm.
  - rewrite existsb_flat_map_false in Hm by (intros; reflexivity). discriminate.
  - discriminate.
  - exists found, snap, [Called (create_call environ) created]. auto.
  - exists found, snap,
      (Called (create_call environ) (Ok g') :: flat_map (poll_events g') polls).
    split; [reflexivity |]. split; [reflexivity |]. observe. reflexivity.
  - exists found, snap,
      (acquire ++
       Called (attach_call environ g') attached :: Called (time_sleep 20) tt ::
       flat_map (round_events environ model_name) rounds ++
       teardown_events environ g' (snapshot_of snap) deleted restored).
    split; [reflexivity |]. split; [reflexivity |].
    unfold teardown_events.
    destruct Hacq as [rest Hg | found polls Hnone Hg Hp];
      destruct (snapshot_of snap); observe; reflexivity.
Qed.

Lemma snapshot_precedes_mutation_witness :
  existsb mutates (trace_of cloud (pull_model_task deployment "llama3") fresh_cloud)
    = true /\
  exists found snap rest,
    trace_of cloud (pull_model_task deployment "llama3") fresh_cloud =
      Called (check_call deployment) found :: Called (snapshot_call deployment) snap
      :: rest /\
    existsb mutates
      [Called (check_call deployment) found; Called (snapshot_call deployment) snap]
      = false /\
    collect route_table_answer rest = [].
Proof.
  split; [vm_compute; reflexivity |].
  apply (snapshot_precedes_mutation cloud deployment "llama3" fresh_cloud).
  vm_compute. reflexivity.
Defined.

Lemma slept_polls (g : string) (polls : list (Result (list string))) :
  list_sum (collect slept (flat_map (poll_events g) polls)) <= 15 * length polls.
Proof.
  induction polls as [| a polls IH]; [simpl; lia |].
  cbn [flat_map length]. rewrite collect_app, list_sum_app.
  assert (Ha : list_sum (collect slept (poll_events g a)) <= 15)
    by (unfold poll_events; destruct (gateway_seen a); simpl; lia).
  lia.
Qed.

Lemma slept_rounds (environ : string -> option string) (model_name : string)
  (rounds : list (Result nat * Result TagsResponse)) :
  list_sum (collect slept (flat_map (round_events environ model_name) rounds)) =
  60 * length rounds.
Proof.
  induction rounds as [| r rounds IH]; [reflexivity |].
  cbn [flat_map length]. rewrite collect_app, list_sum_app.
  change (list_sum (collect slept (round_events environ model_name r))) with 60.
  lia.
Qed.

(** What acquiring a gateway adds to the observations of a run. *)
Lemma acquired_observations (environ : string -> option string) (g : string)
  (found : Result (list string)) (acquire : list Event) :
  Acquired environ g found acquire ->
  length (create_answers acquire) <= 1 /\
  length (poll_answers acquire) <= 40 /\
  replace_route_calls acquire = [] /\
  delete_calls acquire = [] /\
  pull_requests acquire = [] /\
  tags_answers acquire = [] /\
  list_sum (collect slept acquire) <= 600.
Proof.
  intros [rest Hg | found' polls Hnone Hg Hp].
  - simpl. repeat split; auto; lia.
  - unfold create_answers, poll_answers, replace_route_calls, delete_calls,
      pull_requests, tags_answers.
    simpl.
    change (collect poll_answer (flat_map (poll_events g) polls))
      with (poll_answers (flat_map (poll_events g) polls)).
    rewrite poll_answers_polls.
    pose proof (attempts_length _ _ _ _ Hp) as Hlen.
    pose proof (slept_polls g polls) as Hslept.
    rewrite !collect_polls_nil by (intros; reflexivity).
    repeat split; simpl; auto; lia.
Qed.

(** X5: the calls of one run are bounded: at most one create call, 40
    availability polls, two [replace_route] calls, one delete call and ten
    pull requests, each pull request followed by one inventory query. *)
Theorem call_budget {W : Type} (h : forall X : Type, E X -> W -> X * W)
  (environ : string -> option string) (model_name : string) (w : W) :
  length (create_answers (trace_of h (pull_model_task environ model_name) w)) <= 1 /\
  length (poll_answers (trace_of h (pull_model_task environ model_name) w)) <= 40 /\
  length (replace_route_calls (trace_of h (pull_model_task environ model_name) w)) <= 2 /\
  length (delete_calls (trace_of h (pull_model_task environ model_name) w)) <= 1 /\
  length (pull_requests (trace_of h (pull_model_task environ model_name) w)) <= 10 /\
  length (tags_answers (trace_of h (pull_model_task environ model_name) w)) =
    length (pull_requests (trace_of h (pull_model_task environ model_name) w)).
Proof.
  by_shape h environ model_name w.
  - pose proof (attempts_length _ _ _ _ Hr) as Hlen.
    rewrite pull_requests_rounds, tags_answers_rounds, repeat_length, length_map.
    unfold create_answers, poll_answers, replace_route_calls, delete_calls.
    rewrite !collect_rounds_nil by (intros; reflexivity). simpl.
    repeat split; lia.
  - simpl. repeat split; lia.
  - simpl. repeat split; lia.
  - pose proof (attempts_length _ _ _ _ Hp) as Hlen.
    unfold create_answers, poll_answers, replace_route_calls, delete_calls,
      pull_requests, tags_answers.
    simpl.
    change (collect poll_answer (flat_map (poll_events g') polls))
      with (poll_answers (flat_map (poll_events g') polls)).
    rewrite poll_answers_polls.
    rewrite !collect_polls_nil by (intros; reflexivity). simpl.
    repeat split; lia.
  - pose proof (attempts_length _ _ _ _ Hr) as Hlen.
    destruct (acquired_observations _ _ _ _ Hacq)
      as (Hc & Hp & Hrr & Hd & Hpr & Hta & _).
    unfold create_answers, poll_answers, replace_route_calls, delete_calls,
      pull_requests, tags_answers, teardown_events in *.
    simpl. rewrite !collect_app. simpl. rewrite !collect_app.
    change (collect pull_request (flat_map (round_events environ model_name) rounds))
      with (pull_requests (flat_map (round_events environ model_name) rounds)).
    change (collect tags_answer (flat_map (round_events environ model_name) rounds))
      with (tags_answers (flat_map (round_events environ model_name) rounds)).
    rewrite pull_requests_rounds, tags_answers_rounds.
    rewrite !collect_rounds_nil by (intros; reflexivity).
    rewrite Hrr, Hd, Hpr, Hta.
    destruct (snapshot_of snap); simpl;
      rewrite ?length_app, ?repeat_length, ?length_map; simpl;
      repeat split; lia.
Qed.

(** X6: one run sleeps at most 1220 seconds in all: 40 times 15 while it
    waits for the gateway, 20 after the attach, 10 times 60 in the pull
    loop. *)
Theorem bounded_waiting {W : Type} (h : forall X : Type, E X -> W -> X * W)
  (environ : string -> option string) (model_name : string) (w : W) :
  seconds_slept (trace_of h (pull_model_task environ model_name) w) <= 1220.
Proof.
  unfold seconds_slept.
  by_shape h environ model_name w.
  - pose proof (attempts_length _ _ _ _ Hr) as Hlen.
    rewrite slept_rounds. lia.
  - simpl. lia.
  - simpl. lia.
  - pose proof (attempts_length _ _ _ _ Hp) as Hlen.
    pose proof (slept_polls g' polls) as Hslept. simpl. lia.
  - pose proof (attempts_length _ _ _ _ Hr) as Hlen.
    destruct (acquired_observations _ _ _ _ Hacq) as (_ & _ & _ & _ & _ & _ & Hs).
    pose proof (slept_rounds environ model_name rounds) as Hrounds.
    unfold teardown_events. simpl. rewrite !collect_app, !list_sum_app. simpl.
    rewrite !collect_app, !list_sum_app.
    destruct (snapshot_of snap); simpl; lia.
Qed.

(** X7: the gateways a run deletes are exactly the gateway of its attach
    call: nothing is deleted unless the attach call was issued, and then
    the one gateway that was to be attached is deleted, whether the attach
    went through or not. *)
Theorem teardown_deletes_attached_gateway {W : Type}
  (h : forall X : Type, E X -> W -> X * W)
  (environ : string -> option string) (model_name : string) (w : W) :
  delete_calls (trace_of h (pull_model_task environ model_name) w) =
  attached_gateway (trace_of h (pull_model_task environ model_name) w).
Proof.
  unfold attached_gateway, delete_calls, replace_route_calls.
  by_shape h environ model_name w; try (observe; reflexivity).
  destruct Hacq as [rest Hg | found polls Hnone Hg Hp];
    unfold teardown_events; destruct (snapshot_of snap); observe; reflexivity.
Qed.

(** X8: a gateway that a run deletes is the one it found available or the
    one its create call returned; the run deletes no other gateway. *)
Theorem deleted_gateway_origin {W : Type} (h : forall X : Type, E X -> W -> X * W)
  (environ : string -> option string) (model_name : string) (w : W) (g : string) :
  In g (delete_calls (trace_of h (pull_model_task environ model_name) w)) ->
  reused_gateway (trace_of h (pull_model_task environ model_name) w) = Some g \/
  create_answers (trace_of h (pull_model_task environ model_name) w) = [Ok g].
Proof.
  unfold delete_calls, create_answers.
  by_shape h environ model_name w; intros Hin.
  - revert Hin. observe. contradiction.
  - contradiction.
  - contradiction.
  - revert Hin. observe. contradiction.
  - destruct Hacq as [rest Hg | found polls Hnone Hg Hp].
    + left. unfold reused_gateway. rewrite discovery_check, Hg.
      revert Hin. unfold teardown_events. destruct (snapshot_of snap); observe;
        intros [-> | []]; reflexivity.
    + right. revert Hin. unfold teardown_events.
      destruct (snapshot_of snap); observe; intros [-> | []]; reflexivity.
Qed.

Lemma deleted_gateway_origin_witness :
  In "nat-new"
    (delete_calls (trace_of cloud (pull_model_task deployment "llama3") fresh_cloud)) /\
  (reused_gateway (trace_of cloud (pull_model_task deployment "llama3") fresh_cloud)
     = Some "nat-new" \/
   create_answers (trace_of cloud (pull_model_task deployment "llama3") fresh_cloud)
     = [Ok "nat-new"]).
Proof.
  split; [vm_compute; auto |].
  apply (deleted_gateway_origin cloud deployment "llama3" fresh_cloud "nat-new").
  vm_compute. auto.
Defined.

(** X9: when the default route already points to the available gateway
    that the run finds, the run deletes that gateway and then sets the
    default route back to it: the restoring call names the gateway that was
    just deleted. *)
Theorem restore_to_deleted_gateway {W : Type} (h : forall X : Type, E X -> W -> X * W)
  (environ : string -> option string) (model_name : string) (w : W)
  (g : string) (original : Target) :
  reused_gateway (trace_of h (pull_model_task environ model_name) w) = Some g ->
  captured_snapshot (trace_of h (pull_model_task environ model_name) w)
    = Some original ->
  NatGatewayId original = Some g ->
  delete_calls (trace_of h (pull_model_task environ model_name) w) = [g] /\
  restore_target (trace_of h (pull_model_task environ model_name) w) =
    Some {| NatGatewayId := Some g; GatewayId := None;
            InstanceId := None; NetworkInterfaceId := None |}.
Proof.
  unfold captured_snapshot, restore_target, delete_calls, replace_route_calls.
  by_shape h environ model_name w; intros Hreuse Hcaptured Hnat.
  - unfold reused_gateway in Hreuse. rewrite discovery_rounds in Hreuse. discriminate.
  - discriminate.
  - rewrite reused_nothing_found in Hreuse by assumption. discriminate.
  - rewrite reused_nothing_found in Hreuse by assumption. discriminate.
  - destruct Hacq as [rest Hg | found polls Hnone Hg Hp].
    + unfold reused_gateway in Hreuse. rewrite discovery_check, Hg in Hreuse.
      injection Hreuse as <-.
      revert Hcaptured. unfold teardown_events.
      destruct (snapshot_of snap) as [kept |] eqn:Hsnap; observe;
        rewrite ?Hsnap; [| discriminate].
      intros H. injection H as ->.
      unfold restore_kwargs, truthy. rewrite Hnat, Hg. split; reflexivity.
    + rewrite reused_nothing_found in Hreuse by assumption. discriminate.
Qed.

Lemma restore_to_deleted_gateway_witness :
  reused_gateway (trace_of cloud (pull_model_task deployment "llama3") cloud_on_gateway)
    = Some "nat-old" /\
  delete_calls (trace_of cloud (pull_model_task deployment "llama3") cloud_on_gateway)
    = ["nat-old"] /\
  restore_target (trace_of cloud (pull_model_task deployment "llama3") cloud_on_gateway)
    = Some {| NatGatewayId := Some "nat-old"; GatewayId := None;
              InstanceId := None; NetworkInterfaceId := None |}.
Proof.
  split; [vm_compute; reflexivity |].
  apply (restore_to_deleted_gateway cloud deployment "llama3" cloud_on_gateway
           "nat-old"
           {| NatGatewayId := Some "nat-old"; GatewayId := None;
              InstanceId := None; NetworkInterfaceId := None |}).
  - vm_compute. reflexivity.
  - vm_compute. reflexivity.
  - reflexivity.
Defined.

Lemma backend_events_rounds (environ : string -> option string) (model_name : string)
  (rounds : list (Result nat * Result TagsResponse)) :
  filter backend_event (flat_map (round_events environ model_name) rounds) =
  flat_map (round_events environ model_name) rounds.
Proof.
  induction rounds as [| r rounds IH]; simpl; [reflexivity |].
  rewrite IH. reflexivity.
Qed.

Lemma backend_events_polls (g : string) (polls : list (Result (list string))) :
  filter backend_event (flat_map (poll_events g) polls) = [].
Proof.
  induction polls as [| a polls IH]; simpl; [reflexivity |].
  rewrite filter_app, IH. destruct (gateway_seen a); reflexivity.
Qed.

Lemma backend_events_acquired (environ : string -> option string) (g : string)
  (found : Result (list string)) (acquire : list Event) :
  Acquired environ g found acquire -> filter backend_event acquire = [].
Proof.
  intros [rest Hg | found' polls Hnone Hg Hp]; simpl; [reflexivity |].
  apply backend_events_polls.
Qed.

(** X10: a run that does not reach the end of [pull_model_task] makes no
    request to the backend.  In a run that does, the requests to the
    backend are those of 1 to 10 rounds, each a pull request for the
    requested model, a wait of 60 and an inventory query, in that order;
    the run ends with [Success] exactly when the last round is the first
    whose inventory answer contains the model (status 200 and the name
    among the models), and otherwise after exactly ten rounds.  Without
    [OLLAMA_HOST], against a backend that contains the model from the fifth
    inventory answer on, that is five rounds and [Success]. *)
Theorem pull_phase_of_run :
  (forall (W : Type) (h : forall X : Type, E X -> W -> X * W)
          (environ : string -> option string) (model_name : string) (w : W),
      match result_of h (pull_model_task environ model_name) w with
      | Finished o =>
          exists rounds : list (Result nat * Result TagsResponse),
            filter backend_event (trace_of h (pull_model_task environ model_name) w) =
              flat_map (round_events environ model_name) rounds /\
            1 <= length rounds /\ length rounds <= 10 /\
            match o with
            | Success =>
                exists earlier last,
                  rounds = earlier ++ [last] /\
                  Forall (fun r => ~ inventory_lists model_name (snd r)) earlier /\
                  inventory_lists model_name (snd last)
            | NotAvailableAfterRetries =>
                length rounds = 10 /\
                Forall (fun r => ~ inventory_lists model_name (snd r)) rounds
            end
      | _ =>
          filter backend_event (trace_of h (pull_model_task environ model_name) w) = []
      end) /\
  result_of scripted (pull_model_task no_host "llama3")
    (answers_without_llama3 ++ [answer_with_llama3; answer_with_llama3])
    = Finished Success /\
  trace_of scripted (pull_model_task no_host "llama3")
    (answers_without_llama3 ++ [answer_with_llama3; answer_with_llama3]) =
    flat_map
      (fun answer =>
         [Called (client_post "http://localhost:11434/api/pull" "llama3") Raised;
          Called (asyncio_sleep 60) tt;
          Called (client_get "http://localhost:11434/api/tags") answer])
      (answers_without_llama3 ++ [answer_with_llama3]).
Proof.
  split; [| split; vm_compute; reflexivity].
  intros W h environ model_name w.
  by_shape h environ model_name w.
  - exists rounds.
    pose proof (attempts_length _ _ _ _ Hr) as Hlen.
    destruct (attempts_some _ _ _ _ Hr) as (r & rounds' & Heq).
    split; [apply backend_events_rounds |].
    split; [subst rounds; simpl; lia |]. split; [exact Hlen |].
    apply pull_rounds_outcome. exact Hr.
  - reflexivity.
  - reflexivity.
  - simpl. apply backend_events_polls.
  - exists rounds.
    pose proof (attempts_length _ _ _ _ Hr) as Hlen.
    destruct (attempts_some _ _ _ _ Hr) as (r & rounds' & Heq).
    split.
    + simpl. rewrite filter_app, (backend_events_acquired _ _ _ _ Hacq). simpl.
      rewrite filter_app, backend_events_rounds.
      unfold teardown_events. destruct (snapshot_of snap); simpl; apply app_nil_r.
    + split; [subst rounds; simpl; lia |]. split; [exact Hlen |].
      apply pull_rounds_outcome. exact Hr.
Qed.

(** ** The fleet scaler *)

(** X11: when the cluster, service or autoscaling-group name is missing
    from the environment (unset or empty), scaling down and scaling up
    both answer with status 400 and call nothing. *)
Theorem scaling_needs_names {W : Type} (h : forall X : Type, E X -> W -> X * W)
  (environ : string -> option string) (w : W) :
  truthy (environ "CLUSTER_NAME") && truthy (environ "SERVICE_NAME")
    && truthy (environ "AUTOSCALING_GROUP_NAME") = false ->
  result_of h (shutdown_ecs_service environ) w = HTTPException 400 /\
  trace_of h (shutdown_ecs_service environ) w = [] /\
  result_of h (start_ecs_service environ) w = HTTPException 400 /\
  trace_of h (start_ecs_service environ) w = [].
Proof.
  unfold shutdown_ecs_service, start_ecs_service, if_truthy, truthy.
  destruct (environ "CLUSTER_NAME") as [c |]; [| auto].
  destruct (nonempty c); [| auto].
  destruct (environ "SERVICE_NAME") as [s |]; [| auto].
  destruct (nonempty s); [| auto].
  destruct (environ "AUTOSCALING_GROUP_NAME") as [a |]; [| auto].
  destruct (nonempty a); [| auto].
  discriminate.
Qed.

Lemma scaling_needs_names_witness :
  truthy (no_service "CLUSTER_NAME") && truthy (no_service "SERVICE_NAME")
    && truthy (no_service "AUTOSCALING_GROUP_NAME") = false /\
  result_of cloud (shutdown_ecs_service no_service) three_tasks = HTTPException 400 /\
  trace_of cloud (shutdown_ecs_service no_service) three_tasks = [] /\
  result_of cloud (start_ecs_service no_service) three_tasks = HTTPException 400 /\
  trace_of cloud (start_ecs_service no_service) three_tasks = [].
Proof.
  split; [reflexivity |].
  apply (scaling_needs_names cloud no_service three_tasks). reflexivity.
Defined.

(** X12: scaling down updates the autoscaling group first and the service
    second, both to 0.  When the first update raises it answers 500 and has
    called nothing else; when the second raises it answers 500 with the
    autoscaling group already updated and not set back, and stops nothing.
    Only after both updates does it list and stop the tasks, and then it
    answers success whatever the stop calls did. *)
Theorem shutdown_steps {W : Type} (h : forall X : Type, E X -> W -> X * W)
  (cluster_name service_name autoscaling_group_name : string) (w : W) :
  match result_of h (shutdown_calls cluster_name service_name autoscaling_group_name) w with
  | HTTPException code =>
      code = 500 /\
      (trace_of h (shutdown_calls cluster_name service_name autoscaling_group_name) w =
         [Called (asg_update_auto_scaling_group autoscaling_group_name 0 0) Raised] \/
       trace_of h (shutdown_calls cluster_name service_name autoscaling_group_name) w =
         [Called (asg_update_auto_scaling_group autoscaling_group_name 0 0) (Ok tt);
          Called (ecs_update_service cluster_name service_name 0 true) Raised])
  | Returned body =>
      body = "success" /\
      exists w',
        trace_of h (shutdown_calls cluster_name service_name autoscaling_group_name) w =
          Called (asg_update_auto_scaling_group autoscaling_group_name 0 0) (Ok tt) ::
          Called (ecs_update_service cluster_name service_name 0 true) (Ok tt) ::
          trace_of h (stop_ecs_tasks cluster_name service_name) w'
  end.
Proof.
  unfold trace_of, result_of, shutdown_calls. cbn [bind call run].
  destruct (h _ (asg_update_auto_scaling_group autoscaling_group_name 0 0) w)
    as [[[] |] w1]; cbn [bind call run fst snd]; [| auto].
  destruct (h _ (ecs_update_service cluster_name service_name 0 true) w1)
    as [[[] |] w2]; cbn [bind call run fst snd]; [| auto].
  rewrite run_bind.
  destruct (run h (stop_ecs_tasks cluster_name service_name) w2) as [[[] w3] t] eqn:Hrun.
  cbn [run fst snd]. split; [reflexivity |].
  exists w2. rewrite Hrun. cbn [snd]. rewrite app_nil_r. reflexivity.
Qed.

(** X13: scaling up updates the autoscaling group to a desired capacity of
    1 with minimum 0, then the service to a desired count of 1 with a forced
    deployment; it answers success exactly when both calls went through,
    500 as soon as one raises, and it never lists or stops a task. *)
Theorem start_steps {W : Type} (h : forall X : Type, E X -> W -> X * W)
  (cluster_name service_name autoscaling_group_name : string) (w : W) :
  match result_of h (start_calls cluster_name service_name autoscaling_group_name) w with
  | HTTPException code =>
      code = 500 /\
      (trace_of h (start_calls cluster_name service_name autoscaling_group_name) w =
         [Called (asg_update_auto_scaling_group autoscaling_group_name 1 0) Raised] \/
       trace_of h (start_calls cluster_name service_name autoscaling_group_name) w =
         [Called (asg_update_auto_scaling_group autoscaling_group_name 1 0) (Ok tt);
          Called (ecs_update_service cluster_name service_name 1 true) Raised])
  | Returned body =>
      body = "success" /\
      trace_of h (start_calls cluster_name service_name autoscaling_group_name) w =
        [Called (asg_update_auto_scaling_group autoscaling_group_name 1 0) (Ok tt);
         Called (ecs_update_service cluster_name service_name 1 true) (Ok tt)]
  end.
Proof.
  unfold trace_of, result_of, start_calls. cbn [bind call run].
  destruct (h _ (asg_update_auto_scaling_group autoscaling_group_name 1 0) w)
    as [[[] |] w1]; cbn [bind call run fst snd]; [| auto].
  destruct (h _ (ecs_update_service cluster_name service_name 1 true) w1)
    as [[[] |] w2]; cbn [bind call run fst snd]; auto.
Qed.

(** X14: the readiness operation only reads: it makes at most two calls,
    none of which changes anything in the cloud account, and without the
    cluster or service name in the environment it answers 400 and calls
    nothing. *)
Theorem readiness_only_reads {W : Type} (h : forall X : Type, E X -> W -> X * W)
  (environ : string -> option string) (w : W) :
  length (trace_of h (selfhost_status environ) w) <= 2 /\
  existsb mutates (trace_of h (selfhost_status environ) w) = false /\
  if truthy (environ "CLUSTER_NAME") && truthy (environ "SERVICE_NAME")
  then exists body, result_of h (selfhost_status environ) w = Returned body
  else result_of h (selfhost_status environ) w = HTTPException 400 /\
       trace_of h (selfhost_status environ) w = [].
Proof.
  unfold selfhost_status, if_truthy, truthy.
  destruct (environ "CLUSTER_NAME") as [c |]; [| simpl; auto].
  destruct (nonempty c); [| simpl; auto].
  destruct (environ "SERVICE_NAME") as [s |]; [| simpl; auto].
  destruct (nonempty s); [| simpl; auto].
  unfold trace_of, result_of, status_of_service, list_ecs_tasks, get_ecs_task_status.
  cbn [bind call run andb].
  destruct (h _ (ecs_list_tasks c s) w) as [listed w1].
  destruct listed as [[| first rest] |]; cbn [bind call run fst snd];
    try (simpl; eauto; fail).
  destruct (h _ (ecs_describe_tasks c [last (first :: rest) first]) w1) as [answer w2].
  cbn [bind call run fst snd]. simpl. eauto.
Qed.

(** ** Asking the backend for its models *)

Lemma find_name_is (model_name : string) (models : list (option string)) :
  match find (name_is model_name) models with
  | Some m => m = Some model_name /\ existsb (name_is model_name) models = true
  | None => existsb (name_is model_name) models = false
  end.
Proof.
  induction models as [| m models IH]; simpl; [reflexivity |].
  destruct (name_is model_name m) eqn:Hm; simpl.
  - split; [| reflexivity]. destruct m as [n |]; simpl in Hm; [| discriminate].
    apply String.eqb_eq in Hm. subst. reflexivity.
  - exact IH.
Qed.

(** X15: [check_model] makes one inventory request and agrees with the
    test of the pull loop on its answer: when the answer lists the model
    (status 200 and the name among the models) it reports available
    together with the entry of that name, and in every other case it does
    not report available. *)
Theorem check_model_agrees_with_pull {W : Type}
  (h : forall X : Type, E X -> W -> X * W)
  (environ : string -> option string) (model_name : string) (w : W) :
  exists answer,
    trace_of h (check_model environ model_name) w =
      [Called (tags_call environ) answer] /\
    if model_listed model_name answer
    then result_of h (check_model environ model_name) w =
           Ok (Returned {| available := true; model := Some (Some model_name) |})
    else match result_of h (check_model environ model_name) w with
         | Ok (Returned body) => available body = false /\ model body = None
         | Ok (HTTPException _) => True
         | Raised => True
         end.
Proof.
  unfold trace_of, result_of, check_model. cbn [bind call run].
  destruct (h _ (tags_call environ) w) as [answer w1]. cbn [run fst snd].
  exists answer. split; [reflexivity |].
  unfold model_listed, availability_of.
  destruct answer as [r |]; [| exact I].
  destruct (Nat.eqb (status_code r) 200); simpl; [| exact I].
  destruct (json_models r) as [models |]; [| exact I].
  pose proof (find_name_is model_name models) as Hfind.
  destruct (find (name_is model_name) models) as [m |].
  - destruct Hfind as [-> ->]. reflexivity.
  - rewrite Hfind. split; reflexivity.
Qed.

(** X16: [check_model] passes the failures of the backend on: an answer
    with a status other than 200 becomes an HTTP error with that same
    status, whatever the body says, and an exception of the request itself
    is not caught. *)
Theorem check_model_passes_failures {W : Type}
  (h : forall X : Type, E X -> W -> X * W)
  (environ : string -> option string) (model_name : string) (w : W) :
  match tags_answers (trace_of h (check_model environ model_name) w) with
  | [Ok r] =>
      if Nat.eqb (status_code r) 200 then True
      else result_of h (check_model environ model_name) w =
             Ok (HTTPException (status_code r))
  | [Raised] => result_of h (check_model environ model_name) w = Raised
  | _ => False
  end.
Proof.
  unfold trace_of, result_of, check_model, tags_answers. cbn [bind call run].
  destruct (h _ (tags_call environ) w) as [answer w1]. cbn [run fst snd].
  simpl. destruct answer as [r |]; [| reflexivity].
  unfold availability_of. destruct (Nat.eqb (status_code r) 200); simpl; auto.
Qed.

Section Catalogue.

Variable raises_for_status : nat -> bool.
Variable Enterprise : Type.
Variable models_values : list (list Enterprise).

Lemma names_of_some (entries : list (option string)) (names : list string) :
  names_of entries = Some names -> entries = map Some names.
Proof.
  revert names. induction entries as [| [n |] entries IH]; simpl; intros names H.
  - injection H as <-. reflexivity.
  - destruct (names_of entries) as [ns |]; [| discriminate].
    injection H as <-. simpl. rewrite (IH ns eq_refl). reflexivity.
  - discriminate.
Qed.

(** X17: [list_models] never fails and always ends with every enterprise
    model, in the order of the catalogue.  In front of them come the models
    of the backend, one entry per model, and only when the request went
    through, the status did not raise, the body decoded and every entry has
    a name: one entry without a name leaves out all models of the
    backend. *)
Theorem list_models_keeps_enterprise {W : Type}
  (h : forall X : Type, E X -> W -> X * W)
  (environ : string -> option string) (w : W) :
  exists answer names,
    trace_of h (list_models environ raises_for_status Enterprise models_values) w =
      [Called (tags_call environ) answer] /\
    result_of h (list_models environ raises_for_status Enterprise models_values) w =
      map inl (map ollama_model names) ++ map inr (concat models_values) /\
    (names = [] \/
     exists r,
       answer = Ok r /\ raises_for_status (status_code r) = false /\
       json_models r = Ok (map Some names)).
Proof.
  unfold trace_of, result_of, list_models. cbn [bind call run].
  destruct (h _ (tags_call environ) w) as [answer w1]. cbn [run fst snd].
  exists answer. unfold ollama_models_of.
  destruct answer as [r |]; [| exists []; auto].
  destruct (raises_for_status (status_code r)) eqn:Hstatus; [exists []; auto |].
  destruct (json_models r) as [entries |] eqn:Hjson; [| exists []; auto].
  destruct (names_of entries) as [names |] eqn:Hnames; [| exists []; auto].
  exists names. split; [reflexivity |]. split; [reflexivity |].
  right. exists r. apply names_of_some in Hnames. subst entries. auto.
Qed.

End Catalogue.

(** ** The snapshot and its restoration *)

(** X18: the restoring call carries at most one target, which is a target
    of the snapshot; it carries none exactly when no target of the snapshot
    is a non-empty string, and selecting again from what was selected
    changes nothing. *)
Theorem restore_kwargs_selects_one (original_route : Target) :
  targets_set (restore_kwargs original_route) <= 1 /\
  Nat.eqb (targets_set (restore_kwargs original_route)) 0 =
    negb (truthy (NatGatewayId original_route) || truthy (GatewayId original_route)
          || truthy (InstanceId original_route)
          || truthy (NetworkInterfaceId original_route)) /\
  restore_kwargs (restore_kwargs original_route) = restore_kwargs original_route /\
  (NatGatewayId (restore_kwargs original_route) = None \/
   NatGatewayId (restore_kwargs original_route) = NatGatewayId original_route) /\
  (GatewayId (restore_kwargs original_route) = None \/
   GatewayId (restore_kwargs original_route) = GatewayId original_route) /\
  (InstanceId (restore_kwargs original_route) = None \/
   InstanceId (restore_kwargs original_route) = InstanceId original_route) /\
  (NetworkInterfaceId (restore_kwargs original_route) = None \/
   NetworkInterfaceId (restore_kwargs original_route) = NetworkInterfaceId original_route).
Proof.
  destruct original_route as [[n |] [g |] [i |] [ni |]];
    try destruct (nonempty n) eqn:Hn; try destruct (nonempty g) eqn:Hg;
    try destruct (nonempty i) eqn:Hi; try destruct (nonempty ni) eqn:Hni;
    unfold restore_kwargs, targets_set, truthy; simpl;
    rewrite ?Hn, ?Hg, ?Hi, ?Hni; simpl;
    rewrite ?Hn, ?Hg, ?Hi, ?Hni; simpl;
    repeat split; auto.
Qed.

Lemma find_first_default (before after : list Route) (r : Route) :
  forallb (fun x => negb (is_default_route x)) before = true ->
  is_default_route r = true ->
  find is_default_route (before ++ r :: after) = Some r.
Proof.
  intros Hbefore Hr. induction before as [| b before IH]; simpl.
  - rewrite Hr. reflexivity.
  - simpl in Hbefore. apply andb_prop in Hbefore. destruct Hbefore as [Hb Hrest].
    apply negb_true_iff in Hb. rewrite Hb. apply IH. exact Hrest.
Qed.

(** X19: the snapshot is the target of the first route of the first route
    table whose destination is exactly 0.0.0.0/0: routes to other
    destinations in front of it, any route after it and any further route
    table do not matter. *)
Theorem snapshot_is_first_default_route (before after : list Route) (r : Route)
  (tables : list (list Route)) :
  forallb (fun x => negb (is_default_route x)) before = true ->
  is_default_route r = true ->
  snapshot_of (Ok ((before ++ r :: after) :: tables)) = Some (route_target r).
Proof.
  intros Hbefore Hr. simpl. rewrite find_first_default by assumption. reflexivity.
Qed.

Lemma snapshot_is_first_default_route_witness :
  snapshot_of (Ok [routes fresh_cloud; routes cloud_on_gateway])
    = Some via_internet_gateway.
Proof.
  apply (snapshot_is_first_default_route
           [{| DestinationCidrBlock := Some "10.0.0.0/16"; route_target := no_target |}]
           []
           {| DestinationCidrBlock := Some "0.0.0.0/0";
              route_target := via_internet_gateway |}
           [routes cloud_on_gateway]); reflexivity.
Defined.

(** ** The event stream *)

Lemma occurs_app (c : Ascii.ascii) (a b : string) :
  occurs c (a ++ b) = occurs c a || occurs c b.
Proof.
  induction a as [| x a IH]; simpl; [reflexivity |].
  rewrite IH. apply orb_assoc.
Qed.

Lemma replace_char_removes (c : Ascii.ascii) (new s : string) :
  occurs c new = false -> occurs c (replace_char c new s) = false.
Proof.
  intros Hnew. induction s as [| a s IH]; simpl; [reflexivity |].
  destruct (Ascii.eqb a c) eqn:Ha; simpl.
  - rewrite occurs_app, Hnew, IH. reflexivity.
  - rewrite Ha, IH. reflexivity.
Qed.

Lemma replace_char_keeps (c d : Ascii.ascii) (new s : string) :
  Ascii.eqb c d = false -> occurs d new = false ->
  occurs d (replace_char c new s) = occurs d s.
Proof.
  intros Hcd Hnew. induction s as [| a s IH]; simpl; [reflexivity |].
  destruct (Ascii.eqb a c) eqn:Ha; simpl.
  - rewrite occurs_app, Hnew, IH. apply Ascii.eqb_eq in Ha. subst a.
    rewrite Hcd. reflexivity.
  - rewrite IH. reflexivity.
Qed.

Lemma replace_char_absent (c : Ascii.ascii) (new s : string) :
  occurs c s = false -> replace_char c new s = s.
Proof.
  induction s as [| a s IH]; simpl; [reflexivity |].
  intros H. apply orb_false_elim in H. destruct H as [Ha Hs].
  rewrite Ha, IH by assumption. reflexivity.
Qed.

Lemma escaped_content_no_line_feed (content : string) :
  occurs LF (escaped_content content) = false.
Proof.
  unfold escaped_content. rewrite replace_char_keeps by reflexivity.
  apply replace_char_removes. reflexivity.
Qed.

Lemma escaped_content_no_carriage_return (content : string) :
  occurs CR (escaped_content content) = false.
Proof.
  unfold escaped_content. apply replace_char_removes. reflexivity.
Qed.

(** X20: the escaped content of a chunk holds no line feed and no carriage
    return, so it cannot end its frame early; content without either is
    sent as it is. *)
Theorem escaped_content_is_one_line (content : string) :
  occurs LF (escaped_content content) = false /\
  occurs CR (escaped_content content) = false /\
  if occurs LF content || occurs CR content then True
  else escaped_content content = content.
Proof.
  split; [apply escaped_content_no_line_feed |].
  split; [apply escaped_content_no_carriage_return |].
  unfold escaped_content.
  destruct (occurs LF content) eqn:Hlf; simpl; [exact I |].
  destruct (occurs CR content) eqn:Hcr; [exact I |].
  rewrite (replace_char_absent LF) by assumption.
  apply replace_char_absent. assumption.
Qed.

Lemma relay_frames (response : Stream) :
  exists payloads final,
    relay response = map sse_frame payloads ++ [final] /\
    forallb (fun p => negb (occurs LF p) && negb (occurs CR p)) payloads = true /\
    (final = sse_frame "[DONE]" \/ exists message, final = error_frame message).
Proof.
  induction response as [| message | chunk rest IH]; simpl.
  - exists [], (sse_frame "[DONE]"). auto.
  - exists [], (error_frame message). eauto.
  - destruct (delta_content chunk) as [content | message].
    + destruct IH as (payloads & final & Hrelay & Hlines & Hfinal).
      unfold if_truthy.
      destruct (if truthy content then content else completion chunk) as [c |].
      * destruct (nonempty c).
        -- exists (escaped_content c :: payloads), final. simpl.
           rewrite Hrelay, escaped_content_no_line_feed,
             escaped_content_no_carriage_return.
           auto.
        -- exists payloads, final. auto.
      * exists payloads, final. auto.
    + exists [], (error_frame message). eauto.
Qed.

(** X21: whatever the request and the completion library do, the event
    stream is a sequence of content frames followed by exactly one closing
    frame, which is either [[DONE]] or an error.  Every content frame is
    ["data: "], a payload without line feed or carriage return, and two
    line feeds; nothing follows the closing frame. *)
Theorem event_stream_frames (environ : string -> option string) (Message : Type)
  (messages : option (list Message)) (model_name : option string)
  (acompletion : Parameters Message -> Thrown Stream) :
  exists payloads final,
    event_stream environ Message messages model_name acompletion =
      map sse_frame payloads ++ [final] /\
    forallb (fun p => negb (occurs LF p) && negb (occurs CR p)) payloads = true /\
    (final = sse_frame "[DONE]" \/ exists message, final = error_frame message).
Proof.
  unfold event_stream.
  destruct messages as [[| m messages] |];
    try (exists [], (error_frame "'messages' must be a list of {'role', 'content'} dicts.");
         split; [reflexivity | split; [reflexivity | eauto]]).
  destruct model_name as [model_name |];
    [| exists [], (error_frame "'NoneType' object has no attribute 'startswith'");
       split; [reflexivity | split; [reflexivity | eauto]]].
  destruct (acompletion (parameters_for environ Message model_name (m :: messages)))
    as [response | message].
  - apply relay_frames.
  - exists [], (error_frame message). split; [reflexivity | split; [reflexivity | eauto]].
Qed.

(** X22: a request whose ["messages"] is absent, not a list or an empty
    list gets the one error frame about messages, whatever else it holds:
    the model name is not looked at and the completion library is not
    asked. *)
Theorem event_stream_rejects_messages (environ : string -> option string)
  (Message : Type) (messages : option (list Message))
  (model_name model_name' : option string)
  (acompletion acompletion' : Parameters Message -> Thrown Stream) :
  match messages with
  | Some (_ :: _) => False
  | _ => True
  end ->
  event_stream environ Message messages model_name acompletion =
    [sse_frame "Error: 'messages' must be a list of {'role', 'content'} dicts."] /\
  event_stream environ Message messages model_name' acompletion' =
    event_stream environ Message messages model_name acompletion.
Proof.
  destruct messages as [[| m messages] |]; simpl; intros H;
    try contradiction; split; reflexivity.
Qed.

Lemma event_stream_rejects_messages_witness :
  event_stream deployment nat (Some []) (Some "ollama/llama3")
    (fun _ => Fine stream_end) =
  [sse_frame "Error: 'messages' must be a list of {'role', 'content'} dicts."].
Proof.
  apply (event_stream_rejects_messages deployment nat (Some [])
           (Some "ollama/llama3") None (fun _ => Fine stream_end)
           (fun _ => Threw "unused")).
  exact I.
Defined.

(** A stream of three chunks, the second without content, the third with a
    line break in its text. *)
Example event_stream_example :
  event_stream deployment nat (Some [1; 2]) (Some "ollama/llama3")
    (fun parameters =>
       if Nat.eqb (length (param_messages nat parameters)) 2 then
         Fine
           (stream_chunk {| delta_content := Fine (Some "Hel"); completion := None |}
              (stream_chunk {| delta_content := Fine None; completion := Some "" |}
                 (stream_chunk
                    {| delta_content := Fine (Some (String.append "lo" (String LF "you")));
                       completion := None |}
                    stream_end)))
       else Threw "messages lost") =
  [sse_frame "Hel"; sse_frame "lo\nyou"; sse_frame "[DONE]"].
Proof. reflexivity. Qed.
